(** * video-workflow-app: session store, prompt planner and upload workflow

    A shallow embedding of [session_manager.py], [prompt_generator.py],
    [video_processor.py], [config.py], the handlers of [app.py] that create
    a session, show a step, take an upload, serve an image and combine the
    clips, and the polling loop of [archive/video_generator.py], followed by
    the properties of the specification that concern them and by further
    properties of the code.

    Conventions of the embedding.
    - Python values that cross a dynamically typed boundary (JSON documents,
      keyword arguments) are [pyval]s.  The fields of the [SessionData]
      dataclass carry the types of their annotations.
    - A Python call either returns, raises, or leaves the typed fragment
      ([Stuck]): the last outcome marks the places where the code would go on
      with a record whose fields no longer have their declared types.
    - The instance cache of [SessionManager] is a [gmap] from identifiers to
      records, the sessions directory a [gmap] from identifiers to the JSON
      object stored in [<id>.json].
    - What the outside world decides (whether a file can be written, the exit
      status of ffmpeg, whether a path exists, the HTTP response of the
      text-generation service, [json.loads]) is an explicit argument. *)

From stdpp Require Import gmap strings list fin_maps pretty.
From Stdlib Require Import Ascii ZArith QArith Lia.

Local Open Scope Z_scope.
Set Warnings "-register-all".

(** ** Python values and outcomes *)

Module Py.

(** The JSON fragment of Python's values. *)
Inductive pyval : Type :=
| VNone
| VBool (b : bool)
| VInt (z : Z)
| VFloat (q : Q)
| VStr (s : string)
| VList (l : list pyval)
| VDict (d : list (string * pyval)).

(** A [dict] with string keys, in insertion order. *)
Abbreviation dict := (list (string * pyval)).

(** Exceptions are told apart by class; their messages are not modelled. *)
Inductive exn : Type :=
| RuntimeError
| ValueError
| TypeError
| AttributeError
| IndexError
| KeyError
| JSONDecodeError.

Inductive py (A : Type) : Type :=
| Ret (a : A)
| Raise (e : exn)
| Stuck.
Arguments Ret {A} a.
Arguments Raise {A} e.
Arguments Stuck {A}.

Definition bind {A B} (c : py A) (k : A -> py B) : py B :=
  match c with
  | Ret a => k a
  | Raise e => Raise e
  | Stuck => Stuck
  end.

(** [try: c except Exception: h] *)
Definition try_except {A} (c : py A) (h : exn -> py A) : py A :=
  match c with
  | Raise e => h e
  | other => other
  end.

(** [try: c except cls: h], for the classes [cls] that [catches] accepts *)
Definition try_except_only {A} (catches : exn -> bool) (c : py A)
    (h : exn -> py A) : py A :=
  match c with
  | Raise e => if catches e then h e else Raise e
  | other => other
  end.

Definition of_option {A} (e : exn) (o : option A) : py A :=
  match o with
  | Some a => Ret a
  | None => Raise e
  end.

(** [bool(v)] *)
Definition truthy (v : pyval) : bool :=
  match v with
  | VNone => false
  | VBool b => b
  | VInt z => negb (z =? 0)
  | VFloat q => negb (Qeq_bool q 0)
  | VStr s => negb (String.eqb s "")
  | VList l => match l with [] => false | _ => true end
  | VDict d => match d with [] => false | _ => true end
  end.

Definition dict_lookup (k : string) (d : dict) : option pyval :=
  snd <$> List.find (fun kv => String.eqb (fst kv) k) d.

(** [k in d] *)
Definition dict_mem (k : string) (d : dict) : bool :=
  match dict_lookup k d with Some _ => true | None => false end.

(** [d.pop(k, None)], keeping the dictionary *)
Definition dict_pop (k : string) (d : dict) : dict :=
  List.filter (fun kv => negb (String.eqb (fst kv) k)) d.

(** [d[k] = v] *)
Fixpoint dict_set (k : string) (v : pyval) (d : dict) : dict :=
  match d with
  | [] => [(k, v)]
  | (k', v') :: d' =>
      if String.eqb k' k then (k, v) :: d' else (k', v') :: dict_set k v d'
  end.

(** [v.get(k, default)]: only dictionaries have [get]. *)
Definition py_get (v : pyval) (k : string) (default : pyval) : py pyval :=
  match v with
  | VDict d => Ret (from_option id default (dict_lookup k d))
  | _ => Raise AttributeError
  end.

(** [v[0]] *)
Definition py_index0 (v : pyval) : py pyval :=
  match v with
  | VList (x :: _) => Ret x
  | VList [] => Raise IndexError
  | VStr (String c _) => Ret (VStr (String c ""))
  | VStr "" => Raise IndexError
  | VDict _ => Raise KeyError
  | _ => Raise TypeError
  end.

(** *** Strings *)

(** Characters removed by [str.strip()] (the ASCII ones). *)
Definition is_space (c : ascii) : bool :=
  let n := nat_of_ascii c in
  ((9 <=? n) && (n <=? 13) || (28 <=? n) && (n <=? 32))%nat.

Fixpoint lstrip (s : string) : string :=
  match s with
  | String c s' => if is_space c then lstrip s' else s
  | EmptyString => EmptyString
  end.

Fixpoint rstrip (s : string) : string :=
  match s with
  | String c s' =>
      match rstrip s' with
      | EmptyString => if is_space c then EmptyString else String c EmptyString
      | t => String c t
      end
  | EmptyString => EmptyString
  end.

Definition strip (s : string) : string := rstrip (lstrip s).

(** [s.startswith(p)] *)
Definition startswith (s p : string) : bool := String.prefix p s.

(** [s[n:]] *)
Fixpoint drop_chars (n : nat) (s : string) : string :=
  match n, s with
  | O, _ => s
  | S n', String _ s' => drop_chars n' s'
  | S _, EmptyString => EmptyString
  end.

(** The text of [s] before the first occurrence of [sep] (all of [s] when
    there is none): [s.split(sep)[0]]. *)
Fixpoint before_sep (sep s : string) : string :=
  if String.prefix sep s then EmptyString
  else match s with
       | String c s' => String c (before_sep sep s')
       | EmptyString => EmptyString
       end.

(** [s.rsplit('.', 1)[1]] when ['.' in s]: the text after the last dot. *)
Fixpoint after_last_dot (s : string) : option string :=
  match s with
  | EmptyString => None
  | String c s' =>
      match after_last_dot s' with
      | Some e => Some e
      | None => if Ascii.eqb c "."%char then Some s' else None
      end
  end.

Definition lower_char (c : ascii) : ascii :=
  let n := nat_of_ascii c in
  if ((65 <=? n) && (n <=? 90))%nat then ascii_of_nat (n + 32) else c.

(** [s.lower()] on ASCII text *)
Fixpoint lower (s : string) : string :=
  match s with
  | String c s' => String (lower_char c) (lower s')
  | EmptyString => EmptyString
  end.

(** [c in s] *)
Fixpoint has_char (c : ascii) (s : string) : bool :=
  match s with
  | String c' s' => Ascii.eqb c' c || has_char c s'
  | EmptyString => false
  end.

(** [Path(s).name]: the last component of a path. *)
Fixpoint basename (s : string) : string :=
  match s with
  | EmptyString => EmptyString
  | String c s' =>
      if has_char "/" s' then basename s'
      else if Ascii.eqb c "/"%char then s' else s
  end.

(** [str(Path(s).parent)] for a path with a directory component *)
Fixpoint dirname (s : string) : string :=
  match s with
  | EmptyString => EmptyString
  | String c s' =>
      if has_char "/" s' then String c (dirname s') else EmptyString
  end.

(** [str(Path(d) / name)] for plain, relative components *)
Definition path_join (d name : string) : string := d +:+ "/" +:+ name.

(** [str(n)] for an [int] *)
Definition str_of_int (z : Z) : string := pretty z.

End Py.
Import Py.

(** [py] is a monad in stdpp's sense: [x ← c; k] sequences two calls. *)
#[global] Instance py_ret : MRet py := λ A, @Ret A.
#[global] Instance py_bind : MBind py := λ A B k c, bind c k.
#[global] Instance py_fmap : FMap py := λ A B f c, bind c (λ a, Ret (f a)).

(** ** session_manager.py *)

Module session_manager.

(** [@dataclass class SessionData] *)
Record SessionData : Type := mkSessionData {
  session_id : string;
  scene_description : string;
  starting_image_path : string;
  prompts : list string;
  current_step : Z;
  uploaded_videos : list string;
  last_frames : list string;
  num_clips : Z;
  openai_api_key : string;
}.

(** The dataclass fields, in declaration order. *)
Inductive field : Type :=
| F_session_id | F_scene_description | F_starting_image_path | F_prompts
| F_current_step | F_uploaded_videos | F_last_frames | F_num_clips
| F_openai_api_key.

Definition fields : list field :=
  [F_session_id; F_scene_description; F_starting_image_path; F_prompts;
   F_current_step; F_uploaded_videos; F_last_frames; F_num_clips;
   F_openai_api_key].

Definition field_name (f : field) : string :=
  match f with
  | F_session_id => "session_id"
  | F_scene_description => "scene_description"
  | F_starting_image_path => "starting_image_path"
  | F_prompts => "prompts"
  | F_current_step => "current_step"
  | F_uploaded_videos => "uploaded_videos"
  | F_last_frames => "last_frames"
  | F_num_clips => "num_clips"
  | F_openai_api_key => "openai_api_key"
  end.

Definition field_of_name (k : string) : option field :=
  List.find (fun f => String.eqb (field_name f) k) fields.

(** Reading a Python value at a declared type. *)
Definition as_str (v : pyval) : option string :=
  match v with VStr s => Some s | _ => None end.
Definition as_int (v : pyval) : option Z :=
  match v with VInt z => Some z | _ => None end.
Definition as_str_list (v : pyval) : option (list string) :=
  match v with VList l => mapM as_str l | _ => None end.

Definition of_str_list (l : list string) : pyval := VList (VStr <$> l).

(** [getattr(s, f)] *)
Definition get_field (f : field) (s : SessionData) : pyval :=
  match f with
  | F_session_id => VStr (session_id s)
  | F_scene_description => VStr (scene_description s)
  | F_starting_image_path => VStr (starting_image_path s)
  | F_prompts => of_str_list (prompts s)
  | F_current_step => VInt (current_step s)
  | F_uploaded_videos => of_str_list (uploaded_videos s)
  | F_last_frames => of_str_list (last_frames s)
  | F_num_clips => VInt (num_clips s)
  | F_openai_api_key => VStr (openai_api_key s)
  end.

(** [setattr(s, f, v)]; [None] when [v] does not have the type the field
    declares. *)
Definition set_field (f : field) (v : pyval) (s : SessionData)
  : option SessionData :=
  let '(mkSessionData sid sd img pr cs uv lf nc key) := s in
  match f with
  | F_session_id =>
      x ← as_str v; Some (mkSessionData x sd img pr cs uv lf nc key)
  | F_scene_description =>
      x ← as_str v; Some (mkSessionData sid x img pr cs uv lf nc key)
  | F_starting_image_path =>
      x ← as_str v; Some (mkSessionData sid sd x pr cs uv lf nc key)
  | F_prompts =>
      x ← as_str_list v; Some (mkSessionData sid sd img x cs uv lf nc key)
  | F_current_step =>
      x ← as_int v; Some (mkSessionData sid sd img pr x uv lf nc key)
  | F_uploaded_videos =>
      x ← as_str_list v; Some (mkSessionData sid sd img pr cs x lf nc key)
  | F_last_frames =>
      x ← as_str_list v; Some (mkSessionData sid sd img pr cs uv x nc key)
  | F_num_clips =>
      x ← as_int v; Some (mkSessionData sid sd img pr cs uv lf x key)
  | F_openai_api_key =>
      x ← as_str v; Some (mkSessionData sid sd img pr cs uv lf nc x)
  end.

(** [dataclasses.asdict(s)] *)
Definition asdict (s : SessionData) : dict :=
  (fun f => (field_name f, get_field f s)) <$> fields.

(** [SessionData.to_dict]: the API key is removed before saving. *)
Definition to_dict (s : SessionData) : dict :=
  let data := asdict s in
  dict_pop "openai_api_key" data.

(** The constructor called on keyword arguments: unexpected or missing
    keywords raise [TypeError]. *)
Definition cls (kwargs : dict) : py SessionData :=
  if forallb (fun kv => bool_decide (is_Some (field_of_name (fst kv)))) kwargs
     && forallb (fun f => dict_mem (field_name f) kwargs) fields
  then
    let arg f := from_option id VNone (dict_lookup (field_name f) kwargs) in
    let typed :=
      sid ← as_str (arg F_session_id);
      sd ← as_str (arg F_scene_description);
      img ← as_str (arg F_starting_image_path);
      pr ← as_str_list (arg F_prompts);
      cs ← as_int (arg F_current_step);
      uv ← as_str_list (arg F_uploaded_videos);
      lf ← as_str_list (arg F_last_frames);
      nc ← as_int (arg F_num_clips);
      key ← as_str (arg F_openai_api_key);
      Some (mkSessionData sid sd img pr cs uv lf nc key) in
    match typed with
    | Some s => Ret s
    | None => Stuck
    end
  else Raise TypeError.

(** [SessionData.from_dict] *)
Definition from_dict (data : dict) : py SessionData :=
  let data :=
    if negb (dict_mem "openai_api_key" data)
    then dict_set "openai_api_key" (VStr "") data
    else data in
  cls data.

(** [class SessionManager]: the cache [_in_memory_sessions] and the JSON
    objects held by the files [sessions_dir / f"{session_id}.json"], keyed by
    the identifier in the file name.  A file that does not hold a JSON object
    makes [get_session] answer [None] exactly as a missing file does, and
    is overwritten by a save like any other, so it is not told apart from a
    missing one. *)
Record SessionManager : Type := mkSessionManager {
  _in_memory_sessions : gmap string SessionData;
  session_files : gmap string dict;
}.

(** How an attempt to write a session file ends: the file holds the new
    document; or it could not be opened and is as before; or it was opened,
    which empties it, and the write failed, so that it no longer holds a JSON
    object. *)
Inductive disk_write : Type :=
| WriteOk
| WriteRefused
| WriteTorn.

(** [SessionManager(sessions_dir)] on the files that are there *)
Definition __init__ (files : gmap string dict) : SessionManager :=
  mkSessionManager ∅ files.

Definition cache (sid : string) (s : SessionData) (self : SessionManager)
  : SessionManager :=
  mkSessionManager (<[sid := s]> (_in_memory_sessions self))
                   (session_files self).

(** [_save_session]: a failure to write is logged and swallowed; [disk]
    says how the write ends. *)
Definition _save_session (disk : disk_write) (session_data : SessionData)
    (self : SessionManager) : SessionManager :=
  match disk with
  | WriteOk =>
      mkSessionManager (_in_memory_sessions self)
        (<[session_id session_data := to_dict session_data]>
           (session_files self))
  | WriteRefused => self
  | WriteTorn =>
      mkSessionManager (_in_memory_sessions self)
        (delete (session_id session_data) (session_files self))
  end.

(** [create_session]; [uuid] is the value of [str(uuid.uuid4())]. *)
Definition create_session (uuid : string) (disk : disk_write)
    (scene_description starting_image_path : string) (prompts : list string)
    (num_clips : Z) (openai_api_key : string) (self : SessionManager)
  : string * SessionManager :=
  let session_id := uuid in
  let session_data :=
    mkSessionData session_id scene_description starting_image_path prompts
      1 [] [] num_clips openai_api_key in
  (session_id, _save_session disk session_data (cache session_id session_data self)).

(** [get_session] *)
Definition get_session (session_id : string) (self : SessionManager)
  : py (option SessionData * SessionManager) :=
  match _in_memory_sessions self !! session_id with
  | Some s => Ret (Some s, self)
  | None =>
      match session_files self !! session_id with
      | Some data =>
          try_except
            (session_data ← from_dict data;
             Ret (Some session_data, cache session_id session_data self))
            (fun _ => Ret (None, self))
      | None => Ret (None, self)
      end
  end.

(** The attributes of a [SessionData] instance: its fields, its two methods,
    and the double-underscore names it inherits from [object] and the
    dataclass machinery.  Which double-underscore names exist depends on the
    interpreter; every such name is counted as an attribute here. *)
Definition is_method (key : string) : bool :=
  String.eqb key "to_dict" || String.eqb key "from_dict".
Definition is_dunder (key : string) : bool := String.prefix "__" key.

Definition hasattr (key : string) : bool :=
  bool_decide (is_Some (field_of_name key)) || is_method key || is_dunder key.

(** [setattr(session, key, value)] for a [key] that [hasattr] accepts.
    Rebinding a method or an inherited attribute, or binding a field to a
    value of another type than it declares, leaves the typed fragment. *)
Definition setattr (key : string) (value : pyval) (session : SessionData)
  : py SessionData :=
  match field_of_name key with
  | Some f =>
      match set_field f value session with
      | Some session' => Ret session'
      | None => Stuck
      end
  | None => Stuck
  end.

(** The loop [for key, value in updates.items()] of [update_session]. *)
Fixpoint apply_updates (updates : dict) (session : SessionData)
  : py SessionData :=
  match updates with
  | [] => Ret session
  | (key, value) :: updates' =>
      if hasattr key
      then session' ← setattr key value session;
           apply_updates updates' session'
      else apply_updates updates' session
  end.

(** [update_session(session_id, **updates)] *)
Definition update_session (session_id : string) (updates : dict)
    (disk : disk_write) (self : SessionManager) : py (bool * SessionManager) :=
  '(found, self) ← get_session session_id self;
  match found with
  | None => Ret (false, self)
  | Some session =>
      session ← apply_updates updates session;
      Ret (true, _save_session disk session (cache session_id session self))
  end.

(** The body of [add_uploaded_video] on the record it found. *)
Definition append_upload (video_path frame_path : string)
    (session : SessionData) : SessionData :=
  let '(mkSessionData sid sd img pr cs uv lf nc key) := session in
  let uv := uv ++ [video_path] in
  let lf := lf ++ [frame_path] in
  let cs := if cs <? nc then cs + 1 else cs in
  mkSessionData sid sd img pr cs uv lf nc key.

(** [add_uploaded_video] *)
Definition add_uploaded_video (session_id video_path frame_path : string)
    (disk : disk_write) (self : SessionManager) : py (bool * SessionManager) :=
  '(found, self) ← get_session session_id self;
  match found with
  | None => Ret (false, self)
  | Some session =>
      let session := append_upload video_path frame_path session in
      Ret (true, _save_session disk session (cache session_id session self))
  end.

(** [get_current_image_path] *)
Definition get_current_image_path (session_id : string)
    (self : SessionManager) : py (option string * SessionManager) :=
  '(found, self) ← get_session session_id self;
  match found with
  | None => Ret (None, self)
  | Some session =>
      if current_step session =? 1
      then Ret (Some (starting_image_path session), self)
      else if (1 <? current_step session)
              && (current_step session - 1 <=? Z.of_nat (length (last_frames session)))
      then Ret (last_frames session !! Z.to_nat (current_step session - 2), self)
      else Ret (None, self)
  end.

(** [is_complete] *)
Definition is_complete (session_id : string) (self : SessionManager)
  : py (bool * SessionManager) :=
  '(found, self) ← get_session session_id self;
  match found with
  | None => Ret (false, self)
  | Some session =>
      Ret (num_clips session <=? Z.of_nat (length (uploaded_videos session)), self)
  end.

End session_manager.
Import session_manager.

(** ** prompt_generator.py *)

Module prompt_generator.

(** What [requests.post] hands back, as far as the caller looks at it:
    [response.ok] and the value of [response.json()], [None] when the body
    is not JSON and the call raises. *)
Record http_response : Type := mkResponse {
  resp_ok : bool;
  resp_json : option pyval;
}.

Definition system_prompt : string :=
  "You are a creative video scriptwriter. Your job is to break down a scene description "
  +:+ "into distinct, sequential video clips. Each clip should build on the previous one, "
  +:+ "creating a coherent story progression. Return ONLY a JSON array of strings with no markdown.".

Definition newline : string := String (ascii_of_nat 10) "".

Definition user_message (scene_description : string) (num_clips : Z) : string :=
  "Break this scene into " +:+ str_of_int num_clips
  +:+ " distinct, sequential video clip prompts. "
  +:+ "Each prompt should be 1-2 sentences and build on the previous one. "
  +:+ "Return as a JSON array of exactly " +:+ str_of_int num_clips
  +:+ " strings, nothing else." +:+ newline +:+ newline
  +:+ "Scene: " +:+ scene_description.

Definition is_JSONDecodeError (e : exn) : bool :=
  match e with JSONDecodeError => true | _ => false end.

(** [content.strip()]: only strings have [strip]. *)
Definition py_strip (v : pyval) : py string :=
  match v with
  | VStr s => Ret (strip s)
  | _ => Raise AttributeError
  end.

Definition fence : string := "```".

Section Service.

(** The text-generation service, from the API key, the system prompt and the
    user message to its response; and [json.loads], [None] standing for
    [JSONDecodeError]. *)
Variable requests_post : string -> string -> string -> http_response.
Variable json_loads : string -> option pyval.

(** [call_openai_gpt] *)
Definition call_openai_gpt (api_key scene_description : string)
    (num_clips : Z) : py (list pyval) :=
  let response :=
    requests_post api_key system_prompt
      (user_message scene_description num_clips) in
  if negb (resp_ok response) then Raise RuntimeError
  else
    data ← of_option JSONDecodeError (resp_json response);
    choices ← py_get data "choices" (VList [VDict []]);
    choice ← py_index0 choices;
    message ← py_get choice "message" (VDict []);
    content ← py_get message "content" (VStr "");
    if negb (truthy content) then Raise RuntimeError
    else
      try_except_only is_JSONDecodeError
        (content_clean ← py_strip content;
         let content_clean :=
           if startswith content_clean fence
           then
             let content_clean := before_sep fence (drop_chars 3 content_clean) in
             if startswith content_clean "json"
             then drop_chars 4 content_clean
             else content_clean
           else content_clean in
         let content_clean := strip content_clean in
         prompts ← of_option JSONDecodeError (json_loads content_clean);
         match prompts with
         | VList l =>
             if negb (Z.of_nat (length l) =? num_clips)
             then Raise ValueError
             else Ret l
         | _ => Raise ValueError
         end)
        (fun _ => Raise RuntimeError).

(** The prompt the fallback writes for loop index [i]. *)
Definition fallback_prompt (scene_description : string) (num_clips i : Z)
  : string :=
  scene_description +:+ " (deel " +:+ str_of_int (i + 1) +:+ " van "
  +:+ str_of_int num_clips +:+ ")".

(** [generate_clip_plan] *)
Definition generate_clip_plan (api_key scene_description : string)
    (num_clips : Z) : py (list pyval) :=
  try_except (call_openai_gpt api_key scene_description num_clips)
    (fun _ =>
       Ret (VStr <$> (fallback_prompt scene_description num_clips
                        <$> seqZ 0 num_clips))).

End Service.

End prompt_generator.
Import prompt_generator.

(** ** video_processor.py *)

Module video_processor.

(** One run of the external tool: the command line, the working directory
    when one is given, and the text written to [list.txt] beforehand when
    the command reads it. *)
Record tool_call : Type := mkCall {
  call_cmd : list string;
  call_cwd : option string;
  call_manifest : string;
}.

Section Tool.

(** [subprocess.run(...).returncode] *)
Variable returncode : tool_call -> Z.

(** A call that runs the tool: the runs it made, and its outcome. *)
Definition run_ffmpeg (args : list string) : list tool_call * py unit :=
  let cmd := ["ffmpeg"; "-y"] ++ args in
  let call := mkCall cmd None "" in
  ([call], if negb (returncode call =? 0) then Raise RuntimeError else Ret tt).

Definition strip_audio (input_video output_video : string)
  : list tool_call * py unit :=
  run_ffmpeg ["-i"; input_video; "-c"; "copy"; "-an"; output_video].

Definition extract_last_frame (input_video output_image : string)
  : list tool_call * py unit :=
  run_ffmpeg ["-sseof"; "-0.05"; "-i"; input_video; "-frames:v"; "1";
              "-q:v"; "2"; output_image].

Definition manifest_line (vf : string) : string :=
  "file '" +:+ basename vf +:+ "'" +:+ String (ascii_of_nat 10) "".

Definition concat_videos (video_files : list string) (output_video : string)
  : list tool_call * py unit :=
  let manifest := foldr (fun vf rest => manifest_line vf +:+ rest) "" video_files in
  let cmd := ["ffmpeg"; "-y"; "-f"; "concat"; "-safe"; "0"; "-i"; "list.txt";
              "-c"; "copy"; basename output_video] in
  let call := mkCall cmd (Some (dirname output_video)) manifest in
  ([call], if negb (returncode call =? 0) then Raise RuntimeError else Ret tt).

End Tool.

End video_processor.
Import video_processor.

(** ** app.py: the step, upload and final-combination handlers *)

Module app.

Definition UPLOAD_FOLDER : string := "uploads".
Definition ALLOWED_VIDEO_EXTENSIONS : list string := ["mp4"; "mov"; "avi"].
Definition ALLOWED_IMAGE_EXTENSIONS : list string := ["jpg"; "jpeg"; "png"].

(** [allowed_file] *)
Definition allowed_file (filename : string) (extensions : list string) : bool :=
  has_char "." filename
  && match after_last_dot filename with
     | Some ext => bool_decide (lower ext ∈ extensions)
     | None => false
     end.

(** [url_for(...)] targets *)
Inductive endpoint : Type :=
| ep_index
| ep_plan (session_id : string)
| ep_step (session_id : string) (step_num : Z)
| ep_combine (session_id : string).

(** [flash(message, category)]; a message built from an exception keeps the
    exception in place of its text. *)
Inductive flash : Type :=
| Flash (message category : string)
| FlashExn (message : string) (e : exn) (category : string).

Inductive response : Type :=
| Redirect (target : endpoint)
| RenderStep (step_num : Z) (prompt image_path : string) (is_complete : bool).

(** What a handler leaves behind: its response, the messages it flashed, the
    session manager, and the runs of the external tool it made. *)
Record handled : Type := mkHandled {
  h_response : response;
  h_flashes : list flash;
  h_manager : SessionManager;
  h_calls : list tool_call;
}.

(** What the handlers ask of the world. *)
Record world : Type := mkWorld {
  returncode : tool_call -> Z;
  path_exists : string -> bool;
  path_resolve : string -> string;
  sessions_disk : disk_write;
}.

Definition refuse (message : string) (target : endpoint)
    (self : SessionManager) : py handled :=
  Ret (mkHandled (Redirect target) [Flash message "error"] self []).

Definition step_file (session_id : string) (step_num : Z) (suffix : string)
  : string :=
  path_join (path_join UPLOAD_FOLDER session_id)
            ("step_" +:+ str_of_int step_num +:+ suffix).

(** [step]: show one step with its image and prompt. *)
Definition step (w : world) (session_id : string) (step_num : Z)
    (self : SessionManager) : py handled :=
  '(found, self) ← get_session session_id self;
  match found with
  | None => refuse "Session not found" ep_index self
  | Some session =>
      if (step_num <? 1) || (Z.of_nat (length (prompts session)) <? step_num)
      then refuse "Invalid step number" (ep_plan session_id) self
      else
        let image :=
          if step_num =? 1 then Some (starting_image_path session)
          else if step_num - 1 <=? Z.of_nat (length (last_frames session))
          then last_frames session !! Z.to_nat (step_num - 2)
          else None in
        match image with
        | None => refuse "Previous step not completed" (ep_plan session_id) self
        | Some image_path =>
            if negb (path_exists w image_path)
            then refuse "Image not found" (ep_plan session_id) self
            else
              let prompt :=
                default "" (prompts session !! Z.to_nat (step_num - 1)) in
              let is_complete :=
                step_num <=? Z.of_nat (length (uploaded_videos session)) in
              Ret (mkHandled (RenderStep step_num prompt image_path is_complete)
                             [] self [])
        end
  end.

(** [upload]; [video] is the file name of [request.files['video']], [None]
    when the request carries no such part.  Creating the session directory
    and saving the upload are taken to succeed. *)
Definition upload (w : world) (session_id : string) (step_num : Z)
    (video : option string) (self : SessionManager) : py handled :=
  '(found, self) ← get_session session_id self;
  match found with
  | None => refuse "Session not found" ep_index self
  | Some session =>
      match video with
      | None =>
          refuse "No video file provided" (ep_step session_id step_num) self
      | Some filename =>
          if String.eqb filename ""
          then refuse "No video file selected" (ep_step session_id step_num) self
          else if negb (allowed_file filename ALLOWED_VIDEO_EXTENSIONS)
          then refuse "Invalid file type. Please upload MP4, MOV, or AVI."
                      (ep_step session_id step_num) self
          else
            let video_path := step_file session_id step_num ".mp4" in
            let silent_video_path := step_file session_id step_num "_silent.mp4" in
            let frame_path := step_file session_id step_num "_frame.jpg" in
            let failed calls e :=
              Ret (mkHandled (Redirect (ep_step session_id step_num))
                     [FlashExn "Error processing video: " e "error"] self calls) in
            let '(calls1, stripped) :=
              strip_audio (returncode w) video_path silent_video_path in
            match stripped with
            | Stuck => Stuck
            | Raise e => failed calls1 e
            | Ret _ =>
                let '(calls2, extracted) :=
                  extract_last_frame (returncode w) silent_video_path frame_path in
                match extracted with
                | Stuck => Stuck
                | Raise e => failed (calls1 ++ calls2) e
                | Ret _ =>
                    '(_, self) ← add_uploaded_video session_id silent_video_path
                                   frame_path (sessions_disk w) self;
                    let target :=
                      if step_num <? Z.of_nat (length (prompts session))
                      then ep_step session_id (step_num + 1)
                      else ep_combine session_id in
                    Ret (mkHandled (Redirect target) [] self (calls1 ++ calls2))
                end
            end
      end
  end.

(** The cleanup of [create] when no starting image arrived: the session
    file is unlinked; the cached record stays. *)
Definition discard_session_file (session_id : string)
    (self : SessionManager) : SessionManager :=
  mkSessionManager (_in_memory_sessions self)
                   (delete session_id (session_files self)).

(** [generate_final] *)
Definition generate_final (w : world) (session_id : string)
    (self : SessionManager) : py handled :=
  '(found, self) ← get_session session_id self;
  match found with
  | None => refuse "Session not found" ep_index self
  | Some session =>
      '(complete, self) ← is_complete session_id self;
      if negb complete
      then refuse "Not all videos have been uploaded" (ep_plan session_id) self
      else
        let session_dir := path_join UPLOAD_FOLDER session_id in
        let video_files := uploaded_videos session in
        match List.find (fun video_path => negb (path_exists w video_path))
                        video_files with
        | Some video_path =>
            refuse ("Video file not found: " +:+ video_path)
                   (ep_combine session_id) self
        | None =>
            let final_output := path_join session_dir "final_output.mp4" in
            let video_files_abs := path_resolve w <$> video_files in
            let '(calls, joined) :=
              concat_videos (returncode w) video_files_abs
                            (path_resolve w final_output) in
            match joined with
            | Stuck => Stuck
            | Raise e =>
                Ret (mkHandled (Redirect (ep_combine session_id))
                       [FlashExn "Error combining videos: " e "error"] self calls)
            | Ret _ =>
                Ret (mkHandled (Redirect (ep_combine session_id))
                       [Flash "Video combination complete!" "success"] self calls)
            end
        end
  end.

End app.
Import app.

(** ** Runs of the session store *)

(** The calls a process makes on its session manager.  [OpDiscard] is the
    cleanup of a failed [create], [OpRestart] a fresh process on the same
    sessions directory. *)
Inductive op : Type :=
| OpCreate (uuid : string) (disk : disk_write)
    (scene_description starting_image_path : string) (prompts : list string)
    (num_clips : Z) (openai_api_key : string)
| OpGet (session_id : string)
| OpUpdate (session_id : string) (updates : dict) (disk : disk_write)
| OpAdd (session_id video_path frame_path : string) (disk : disk_write)
| OpImage (session_id : string)
| OpComplete (session_id : string)
| OpDiscard (session_id : string)
| OpRestart.

Definition run_op (o : op) (self : SessionManager) : py SessionManager :=
  match o with
  | OpCreate uuid disk sd img pr nc key =>
      Ret (snd (create_session uuid disk sd img pr nc key self))
  | OpGet sid => snd <$> get_session sid self
  | OpUpdate sid updates disk =>
      snd <$> update_session sid updates disk self
  | OpAdd sid video_path frame_path disk =>
      snd <$> add_uploaded_video sid video_path frame_path disk self
  | OpImage sid => snd <$> get_current_image_path sid self
  | OpComplete sid => snd <$> is_complete sid self
  | OpDiscard sid => Ret (discard_session_file sid self)
  | OpRestart => Ret (__init__ (session_files self))
  end.

(** The fields that record the progress of a session.  The application
    updates [starting_image_path] only; the runs considered here may update
    anything but the progress fields. *)
Definition progress_fields : list string :=
  ["current_step"; "uploaded_videos"; "last_frames"; "num_clips"].

Definition keeps_progress (updates : dict) : bool :=
  forallb (fun kv => bool_decide (fst kv ∉ progress_fields)) updates.

Definition admissible (o : op) : bool :=
  match o with
  | OpUpdate _ updates _ => keeps_progress updates
  | _ => true
  end.

Fixpoint run_ops (ops : list op) (self : SessionManager) : py SessionManager :=
  match ops with
  | [] => Ret self
  | o :: ops' => self' ← run_op o self; run_ops ops' self'
  end.

(** A sequence of uploads for one session, each a video path with its frame
    path. *)
Fixpoint upload_all (session_id : string) (uploads : list (string * string))
    (disk : disk_write) (self : SessionManager) : py SessionManager :=
  match uploads with
  | [] => Ret self
  | (video_path, frame_path) :: uploads' =>
      '(_, self') ← add_uploaded_video session_id video_path frame_path
                      disk self;
      upload_all session_id uploads' disk self'
  end.

(** The states a process reaches from an empty sessions directory. *)
Definition reachable (self : SessionManager) : Prop :=
  exists ops, forallb admissible ops = true
              /\ run_ops ops (__init__ ∅) = Ret self.

(** ** Vocabulary of the specification *)

(** The session invariant of the data model. *)
Definition session_inv (s : SessionData) : Prop :=
  length (uploaded_videos s) = length (last_frames s)
  /\ (1 <= num_clips s ->
      current_step s
      = Z.min (Z.of_nat (length (uploaded_videos s)) + 1) (num_clips s)).

(** Two records that differ at most in the credential. *)
Definition same_but_credential (s1 s2 : SessionData) : Prop :=
  forall f, f <> F_openai_api_key -> get_field f s1 = get_field f s2.

(** The declared type of a field holds the value. *)
Definition has_type (f : field) (v : pyval) : bool :=
  match f with
  | F_prompts | F_uploaded_videos | F_last_frames =>
      bool_decide (is_Some (as_str_list v))
  | F_current_step | F_num_clips => bool_decide (is_Some (as_int v))
  | _ => bool_decide (is_Some (as_str v))
  end.

(** Keyword arguments that stay in the typed fragment: each names a field
    and binds it to a value of its type, or names no attribute at all. *)
Definition well_typed (updates : dict) : bool :=
  forallb (fun kv =>
             match field_of_name (fst kv) with
             | Some f => has_type f (snd kv)
             | None => negb (hasattr (fst kv))
             end) updates.

(** The value a keyword argument list binds to a name. *)
Definition bound_to (key : string) (updates : dict) : option pyval :=
  dict_lookup key (rev updates).

(** The steps a session has not received a video for. *)
Definition missing_steps (s : SessionData) : list Z :=
  seqZ (Z.of_nat (length (uploaded_videos s)) + 1)
       (num_clips s - Z.of_nat (length (uploaded_videos s))).

(** [sub in s] and [s.endswith(suffix)] *)
Definition contains (s sub : string) : Prop :=
  exists a b, s = a +:+ sub +:+ b.
Definition endswith (s suffix : string) : Prop :=
  exists a, s = a +:+ suffix.

(** What [get_session] can answer, and what it does to the manager. *)
Inductive get_session_spec (sid : string) (self : SessionManager)
  : option SessionData -> SessionManager -> Prop :=
| get_cached (s : SessionData) :
    _in_memory_sessions self !! sid = Some s ->
    get_session_spec sid self (Some s) self
| get_loaded (data : dict) (s : SessionData) :
    _in_memory_sessions self !! sid = None ->
    session_files self !! sid = Some data ->
    from_dict data = Ret s ->
    get_session_spec sid self (Some s) (cache sid s self)
| get_unreadable (data : dict) (e : exn) :
    _in_memory_sessions self !! sid = None ->
    session_files self !! sid = Some data ->
    from_dict data = Raise e ->
    get_session_spec sid self None self
| get_unknown :
    _in_memory_sessions self !! sid = None ->
    session_files self !! sid = None ->
    get_session_spec sid self None self.

(** Every cached record satisfies the session invariant, and every stored
    file is the saved form of a record that does. *)
Definition store_inv (self : SessionManager) : Prop :=
  (forall sid s, _in_memory_sessions self !! sid = Some s -> session_inv s)
  /\ (forall sid data,
        session_files self !! sid = Some data ->
        exists s, data = to_dict s /\ session_inv s).

(** The statement that uploads are unbounded, for every session a reachable
    store knows, whatever its clip count. *)
Definition unbounded_uploads_for_every_session : Prop :=
  forall (sid video_path frame_path : string) (disk : disk_write)
         (self self1 : SessionManager) (s : SessionData),
    reachable self ->
    get_session sid self = Ret (Some s, self1) ->
    num_clips s <= Z.of_nat (length (uploaded_videos s)) ->
    exists self' s',
      add_uploaded_video sid video_path frame_path disk self
      = Ret (true, self')
      /\ _in_memory_sessions self' !! sid = Some s'
      /\ uploaded_videos s' = uploaded_videos s ++ [video_path]
      /\ last_frames s' = last_frames s ++ [frame_path]
      /\ current_step s' = num_clips s'
      /\ is_complete sid self' = Ret (true, self').

(** The statement that a refused concatenation runs no tool and tells the
    user which steps are missing: the missing steps can be read off the
    response and the flashed messages. *)
Definition refusal_reports_missing_steps : Prop :=
  exists report : response -> list flash -> list Z,
    forall (w : world) (sid : string) (self self1 : SessionManager)
           (s : SessionData) (h : handled),
      get_session sid self = Ret (Some s, self1) ->
      Z.of_nat (length (uploaded_videos s)) < num_clips s ->
      generate_final w sid self = Ret h ->
      h_calls h = [] /\ report (h_response h) (h_flashes h) = missing_steps s.

(** ** Example runs *)

Module Demo.

Definition fresh : SessionManager := __init__ ∅.

Definition created (num_clips : Z) : SessionManager :=
  snd (create_session "u1" WriteOk "a cat exploring a garden" "start.jpg"
         ["p1"; "p2"; "p3"] num_clips "sk-demo" fresh).

Definition manager_of (r : py (bool * SessionManager)) : SessionManager :=
  match r with
  | Ret (_, self) => self
  | _ => fresh
  end.

Definition uploaded_once (num_clips : Z) : SessionManager :=
  manager_of (add_uploaded_video "u1" "step_1_silent.mp4" "step_1_frame.jpg"
                WriteOk (created num_clips)).

Definition uploaded_twice (num_clips : Z) : SessionManager :=
  manager_of (add_uploaded_video "u1" "step_2_silent.mp4" "step_2_frame.jpg"
                WriteOk (uploaded_once num_clips)).

Definition create_op (num_clips : Z) : op :=
  OpCreate "u1" WriteOk "a cat exploring a garden" "start.jpg"
    ["p1"; "p2"; "p3"] num_clips "sk-demo".

Definition upload_op : op :=
  OpAdd "u1" "step_1_silent.mp4" "step_1_frame.jpg" WriteOk.

End Demo.

(** A world in which the tool succeeds and every path exists. *)
Definition quiet_world : world :=
  mkWorld (fun _ => 0) (fun _ => true) (fun p => "/srv/app/" +:+ p) WriteOk.

Module DemoService.

(** A service that answers with an error status. *)
Definition down : string -> string -> string -> http_response :=
  fun _ _ _ => mkResponse false None.

(** A service whose completion is the text [[1, 2, 3]]. *)
Definition numbers : string -> string -> string -> http_response :=
  fun _ _ _ =>
    mkResponse true
      (Some (VDict [("choices",
                     VList [VDict [("message",
                                    VDict [("content", VStr "[1, 2, 3]")])]])])).

(** [json.loads] on the one text the example needs. *)
Definition loads (text : string) : option pyval :=
  if String.eqb text "[1, 2, 3]"
  then Some (VList [VInt 1; VInt 2; VInt 3])
  else None.

End DemoService.

(** ** app.py: the image route and session creation *)

Module app_routes.

(** [get_image] answers with a file or with a 404 text. *)
Inductive image_reply : Type :=
| NotFound (message : string)
| SendFile (path : string).

(** [l[i]] on a Python list: a negative index counts from the end; [None]
    stands for [IndexError]. *)
Definition py_item {A} (l : list A) (i : Z) : option A :=
  if 0 <=? i then l !! Z.to_nat i
  else if 0 <=? Z.of_nat (length l) + i
  then l !! Z.to_nat (Z.of_nat (length l) + i)
  else None.

(** [get_image] *)
Definition get_image (w : world) (session_id : string) (step_num : Z)
    (self : SessionManager) : py (image_reply * SessionManager) :=
  '(found, self) ← get_session session_id self;
  match found with
  | None => Ret (NotFound "Session not found", self)
  | Some session =>
      image ←
        (if step_num =? 1 then Ret (Some (starting_image_path session))
         else if step_num - 1 <=? Z.of_nat (length (last_frames session))
         then frame ← of_option IndexError
                        (py_item (last_frames session) (step_num - 2));
              Ret (Some frame)
         else Ret None);
      match image with
      | None => Ret (NotFound "Image not found", self)
      | Some image_path =>
          if negb (path_exists w image_path)
          then Ret (NotFound "Image not found", self)
          else Ret (SendFile image_path, self)
      end
  end.

(** The form of [create]: a text field that is missing reads as the empty
    string, [form_num_clips] is the value of
    [int(request.form.get('num_clips', 4))], and [form_image_file] is the
    file name of [request.files['starting_image_file']], [None] when the
    request has no such part. *)
Record create_form : Type := mkForm {
  form_openai_api_key : string;
  form_scene_description : string;
  form_num_clips : Z;
  form_image_file : option string;
  form_image_url : string;
}.

(** What [create] asks of the world: the fresh identifier, how the two
    writes of the session file end, the exception raised while the starting
    image is saved or downloaded, if any, and which paths exist
    afterwards. *)
Record create_world : Type := mkCreateWorld {
  new_uuid : string;
  create_write : disk_write;
  update_write : disk_write;
  image_failure : option exn;
  image_exists : string -> bool;
}.

Definition temp_image_path : string := "/tmp/temp_starting_image.jpg".

(** Both [save_starting_image] and [download_image_from_url] return
    [UPLOAD_FOLDER / session_id / "starting_image.jpg"] when they return:
    an upload of another type is converted to that file. *)
Definition store_starting_image (cw : create_world) (session_id : string)
  : py string :=
  match image_failure cw with
  | Some e => Raise e
  | None =>
      Ret (path_join (path_join UPLOAD_FOLDER session_id) "starting_image.jpg")
  end.

Section Create.

Variable requests_post : string -> string -> string -> http_response.
Variable json_loads : string -> option pyval.

(** [create].  Creating the session directory is taken to succeed; a plan
    that is not a list of strings leaves the typed fragment. *)
Definition create (cw : create_world) (form : create_form)
    (self : SessionManager) : py handled :=
  let openai_api_key := strip (form_openai_api_key form) in
  let scene_description := strip (form_scene_description form) in
  let num_clips := form_num_clips form in
  if String.eqb openai_api_key ""
  then refuse "OpenAI API key is required" ep_index self
  else if String.eqb scene_description ""
  then refuse "Scene description is required" ep_index self
  else
    plan ← generate_clip_plan requests_post json_loads openai_api_key
              scene_description num_clips;
    match as_str_list (VList plan) with
    | None => Stuck
    | Some prompts =>
        let '(session_id, self) :=
          create_session (new_uuid cw) (create_write cw) scene_description
            temp_image_path prompts num_clips openai_api_key self in
        let stored : py (option string) :=
          match form_image_file form with
          | Some filename =>
              if negb (String.eqb filename "")
                 && allowed_file filename ALLOWED_IMAGE_EXTENSIONS
              then Some <$> store_starting_image cw session_id
              else Ret None
          | None =>
              if negb (String.eqb (strip (form_image_url form)) "")
              then Some <$> store_starting_image cw session_id
              else Ret None
          end in
        match stored with
        | Stuck => Stuck
        | Raise e =>
            Ret (mkHandled (Redirect ep_index)
                   [FlashExn "Error creating session: " e "error"] self [])
        | Ret starting_image =>
            match starting_image with
            | Some image_path =>
                if image_exists cw image_path
                then
                  '(_, self) ← update_session session_id
                                 [("starting_image_path", VStr image_path)]
                                 (update_write cw) self;
                  Ret (mkHandled (Redirect (ep_plan session_id)) [] self [])
                else
                  refuse "Starting image is required (upload file or provide URL)"
                         ep_index (discard_session_file session_id self)
            | None =>
                refuse "Starting image is required (upload file or provide URL)"
                       ep_index (discard_session_file session_id self)
            end
        end
    end.

End Create.

End app_routes.
Import app_routes.

(** ** config.py *)

Module config.

(** [class Config]; [output_dir] is the text the [Path] is built from. *)
Record Config : Type := mkConfig {
  api_key : string;
  output_dir : string;
}.

(** How [from_yaml] can fail: the file is missing, it is not YAML, or a
    Python exception of the classes of [exn]. *)
Inductive config_error : Type :=
| FileNotFoundError
| YAMLError
| PyError (e : exn).

Inductive loaded : Type :=
| Loaded (c : Config)
| Failed (e : config_error).

(** [a or b] on two results of [os.environ.get] *)
Definition env_or (a b : option string) : option string :=
  match a with
  | Some x => if String.eqb x "" then b else Some x
  | None => b
  end.

(** [Config.from_yaml]: [file_exists] is [config_file.exists()], [document]
    the value of [yaml.safe_load], [None] when it raises, and [environ] the
    environment.  Only dictionaries have [get]; [Path] takes a string. *)
Definition from_yaml (file_exists : bool) (document : option pyval)
    (environ : string -> option string) : loaded :=
  if negb file_exists then Failed FileNotFoundError
  else
    match document with
    | None => Failed YAMLError
    | Some data =>
        let api_key :=
          env_or (environ "OPENAI_API_KEY") (environ "VIDEO_API_KEY") in
        match api_key with
        | None => Failed (PyError RuntimeError)
        | Some key =>
            if String.eqb key "" then Failed (PyError RuntimeError)
            else
              match data with
              | VDict d =>
                  match from_option id (VDict []) (dict_lookup "output" d) with
                  | VDict output =>
                      match from_option id (VStr "uploads")
                              (dict_lookup "directory" output) with
                      | VStr directory => Loaded (mkConfig key directory)
                      | _ => Failed (PyError TypeError)
                      end
                  | _ => Failed (PyError AttributeError)
                  end
              | _ => Failed (PyError AttributeError)
              end
        end
    end.

End config.

(** ** archive/video_generator.py: polling *)

Module video_generator.

Definition max_polls : nat := 120.

(** [status == s] *)
Definition status_is (status : pyval) (s : string) : bool :=
  match status with
  | VStr x => String.eqb x s
  | _ => false
  end.

Section Polling.

(** The response to the status request number [n], counted from 0. *)
Variable requests_get : nat -> http_response.

(** The loop of [poll_video_status] with [remaining] iterations left
    before [poll_count] reaches [max_polls].  The configuration the archived
    module was written for carries the poll interval; the sleep between two
    polls is taken to return and is not modelled. *)
Fixpoint poll_loop (remaining poll_count : nat) : py pyval :=
  match remaining with
  | O => Raise RuntimeError
  | S remaining' =>
      let response := requests_get poll_count in
      if negb (resp_ok response) then Raise RuntimeError
      else
        data ← of_option JSONDecodeError (resp_json response);
        status ← py_get data "status" VNone;
        if status_is status "completed" then Ret data
        else if status_is status "failed" then Raise RuntimeError
        else poll_loop remaining' (S poll_count)
  end.

(** [poll_video_status] *)
Definition poll_video_status : py pyval := poll_loop max_polls 0.

End Polling.

End video_generator.

(** ** Vocabulary of the further properties *)

(** The record as a fresh process reads it back: without the credential. *)
Definition forget_credential (s : SessionData) : SessionData :=
  mkSessionData (session_id s) (scene_description s) (starting_image_path s)
    (prompts s) (current_step s) (uploaded_videos s) (last_frames s)
    (num_clips s) "".

(** A fresh process on the sessions directory of [self]. *)
Definition restart (self : SessionManager) : SessionManager :=
  __init__ (session_files self).

(** The response of the text-generation service that carries the completion
    [content]. *)
Definition completion (content : string) : http_response :=
  mkResponse true
    (Some (VDict [("choices",
                   VList [VDict [("message",
                                  VDict [("content", VStr content)])]])])).

(** What [call_openai_gpt] makes of the cleaned completion text. *)
Definition parsed_plan (parsed : option pyval) (num_clips : Z)
  : py (list pyval) :=
  match parsed with
  | None => Raise RuntimeError
  | Some (VList l) =>
      if Z.of_nat (length l) =? num_clips then Ret l else Raise ValueError
  | Some _ => Raise ValueError
  end.

(** The two runs of the tool an upload for [step_num] makes. *)
Definition strip_call (session_id : string) (step_num : Z) : tool_call :=
  mkCall ["ffmpeg"; "-y"; "-i"; step_file session_id step_num ".mp4";
          "-c"; "copy"; "-an"; step_file session_id step_num "_silent.mp4"]
         None "".

Definition extract_call (session_id : string) (step_num : Z) : tool_call :=
  mkCall ["ffmpeg"; "-y"; "-sseof"; "-0.05"; "-i";
          step_file session_id step_num "_silent.mp4"; "-frames:v"; "1";
          "-q:v"; "2"; step_file session_id step_num "_frame.jpg"]
         None "".

(** The record an accepted upload for [step_num] leaves. *)
Definition after_upload (session_id : string) (step_num : Z)
    (s : SessionData) : SessionData :=
  append_upload (step_file session_id step_num "_silent.mp4")
                (step_file session_id step_num "_frame.jpg") s.

(** The message [create] flashes when no starting image arrived. *)
Definition image_required : string :=
  "Starting image is required (upload file or provide URL)".

(** The session [create] makes before the starting image is known. *)
Definition created_record (cw : create_world) (form : create_form)
    (image_path : string) (plan : list string) : SessionData :=
  mkSessionData (new_uuid cw) (strip (form_scene_description form)) image_path
    plan 1 [] [] (form_num_clips form) (strip (form_openai_api_key form)).

Module DemoCreate.

Definition everything_fine : create_world :=
  mkCreateWorld "u7" WriteOk WriteOk None (fun _ => true).

Definition image_fails : create_world :=
  mkCreateWorld "u7" WriteOk WriteOk (Some RuntimeError) (fun _ => true).

(** A form with a picture attached. *)
Definition with_file : create_form :=
  mkForm " sk-demo " "a cat exploring a garden" 2 (Some "cat.PNG") "".

(** A form as a browser sends it when no file was chosen: an empty file
    part, and an address typed in. *)
Definition with_url_and_empty_file : create_form :=
  mkForm "sk-demo" "a cat exploring a garden" 2 (Some "")
    "https://example.org/cat.jpg".

Definition without_key : create_form :=
  mkForm "   " "a cat exploring a garden" 2 (Some "cat.png") "".

Definition plan : list string :=
  ["a cat exploring a garden (deel 1 van 2)";
   "a cat exploring a garden (deel 2 van 2)"].

End DemoCreate.

(** A status response that ends the polling with success: it is fine and
    carries [data], whose status is [completed]. *)
Definition completed_with (r : http_response) (data : pyval) : Prop :=
  resp_ok r = true
  /\ resp_json r = Some data
  /\ exists status,
       py_get data "status" VNone = Ret status
       /\ video_generator.status_is status "completed" = true.

(** A status response after which the polling goes on: it is fine and its
    status is neither [completed] nor [failed]. *)
Definition still_running (r : http_response) : Prop :=
  resp_ok r = true
  /\ exists data status,
       resp_json r = Some data
       /\ py_get data "status" VNone = Ret status
       /\ video_generator.status_is status "completed" = false
       /\ video_generator.status_is status "failed" = false.

Module DemoPolling.

Definition status_response (status : string) : http_response :=
  mkResponse true (Some (VDict [("status", VStr status)])).

(** Two polls find the video in progress, the third finds it done. *)
Definition done_at_third (n : nat) : http_response :=
  match n with
  | 0%nat => status_response "pending"
  | 1%nat => status_response "processing"
  | _ => status_response "completed"
  end.

Definition never_done (n : nat) : http_response := status_response "pending".

End DemoPolling.

Module DemoConfig.

(** An environment with an empty [OPENAI_API_KEY] and a [VIDEO_API_KEY]. *)
Definition video_key_only (name : string) : option string :=
  if String.eqb name "OPENAI_API_KEY" then Some ""
  else if String.eqb name "VIDEO_API_KEY" then Some "video-key"
  else None.

Definition openai_key_only (name : string) : option string :=
  if String.eqb name "OPENAI_API_KEY" then Some "sk-demo" else None.

End DemoConfig.

(** * Properties *)

(** ** Serialization of session records *)

Section Serialization.

Implicit Types (s : SessionData) (l : list string).

Lemma mapM_as_str l : mapM as_str (VStr <$> l) = Some l.
Proof.
  induction l as [|x l IH]; [done|].
  cbn. rewrite IH. done.
Qed.

Lemma as_str_list_of_str_list l : as_str_list (of_str_list l) = Some l.
Proof. apply mapM_as_str. Qed.

Lemma of_str_list_inj l1 l2 : of_str_list l1 = of_str_list l2 -> l1 = l2.
Proof.
  intros H. apply (f_equal as_str_list) in H.
  rewrite !as_str_list_of_str_list in H. congruence.
Qed.

(** The saved dictionary has the eight stored fields, in declaration order. *)
Lemma to_dict_unfold s :
  to_dict s
  = [("session_id", VStr (session_id s));
     ("scene_description", VStr (scene_description s));
     ("starting_image_path", VStr (starting_image_path s));
     ("prompts", of_str_list (prompts s));
     ("current_step", VInt (current_step s));
     ("uploaded_videos", of_str_list (uploaded_videos s));
     ("last_frames", of_str_list (last_frames s));
     ("num_clips", VInt (num_clips s))].
Proof. reflexivity. Qed.

Lemma same_but_credential_fields s1 s2 :
  same_but_credential s1 s2 ->
  session_id s1 = session_id s2
  /\ scene_description s1 = scene_description s2
  /\ starting_image_path s1 = starting_image_path s2
  /\ prompts s1 = prompts s2
  /\ current_step s1 = current_step s2
  /\ uploaded_videos s1 = uploaded_videos s2
  /\ last_frames s1 = last_frames s2
  /\ num_clips s1 = num_clips s2.
Proof.
  intros H.
  pose proof (H F_session_id) as H1. pose proof (H F_scene_description) as H2.
  pose proof (H F_starting_image_path) as H3. pose proof (H F_prompts) as H4.
  pose proof (H F_current_step) as H5. pose proof (H F_uploaded_videos) as H6.
  pose proof (H F_last_frames) as H7. pose proof (H F_num_clips) as H8.
  cbn in *.
  repeat split;
    first [ apply of_str_list_inj; auto; fail
          | (by injection H1) | (by injection H2) | (by injection H3)
          | (by injection H5) | (by injection H8) ].
Qed.

Lemma from_dict_to_dict s :
  from_dict (to_dict s)
  = Ret (mkSessionData (session_id s) (scene_description s)
           (starting_image_path s) (prompts s) (current_step s)
           (uploaded_videos s) (last_frames s) (num_clips s) "").
Proof.
  destruct s as [sid sd img pr cs uv lf nc key].
  unfold from_dict, cls. cbn.
  rewrite !mapM_as_str. reflexivity.
Qed.

End Serialization.

(** C5. The saved representation of a session record has no credential
    field, and two records that differ only in [openai_api_key] are saved as
    the same dictionary in the same file: [to_dict] agrees on them, and so
    does what [_save_session] leaves in the sessions directory. *)
Theorem to_dict_hides_credential (s1 s2 : SessionData) :
  same_but_credential s1 s2 ->
  dict_lookup "openai_api_key" (to_dict s1) = None
  /\ to_dict s1 = to_dict s2
  /\ forall disk self,
       session_files (_save_session disk s1 self)
       = session_files (_save_session disk s2 self).
Proof.
  intros H. apply same_but_credential_fields in H.
  destruct H as (H1 & H2 & H3 & H4 & H5 & H6 & H7 & H8).
  assert (to_dict s1 = to_dict s2) as Hd.
  { rewrite !to_dict_unfold. congruence. }
  split; [reflexivity|]. split; [exact Hd|].
  intros [] self; unfold _save_session; rewrite ?Hd, ?H1; reflexivity.
Qed.

Lemma to_dict_hides_credential_witness :
  let s1 := mkSessionData "id" "a cat" "img.jpg" ["p"] 1 [] [] 1 "sk-one" in
  let s2 := mkSessionData "id" "a cat" "img.jpg" ["p"] 1 [] [] 1 "sk-two" in
  same_but_credential s1 s2
  /\ s1 <> s2
  /\ to_dict s1 = to_dict s2.
Proof.
  intros s1 s2.
  assert (same_but_credential s1 s2) as H.
  { intros f Hf. destruct f; try reflexivity. congruence. }
  split; [exact H|]. split; [discriminate|].
  exact (proj1 (proj2 (to_dict_hides_credential s1 s2 H))).
Defined.

(** C9. Reading back what [to_dict] wrote gives the record again, with the
    credential replaced by the empty string and every other field as it
    was. *)
Theorem from_dict_to_dict_roundtrip (s : SessionData) :
  exists s',
    from_dict (to_dict s) = Ret s'
    /\ same_but_credential s s'
    /\ openai_api_key s' = "".
Proof.
  eexists. split; [apply from_dict_to_dict|].
  split; [|reflexivity].
  intros f Hf. destruct s, f; try reflexivity. congruence.
Qed.

(** ** The session store *)

Section Store.

Implicit Types (s : SessionData) (self : SessionManager) (sid : string).


Lemma get_session_inv sid self found self' :
  get_session sid self = Ret (found, self') ->
  get_session_spec sid self found self'.
Proof.
  unfold get_session.
  destruct (_in_memory_sessions self !! sid) as [s|] eqn:Hmem.
  { intros [= <- <-]. by constructor. }
  destruct (session_files self !! sid) as [data|] eqn:Hfile.
  - destruct (from_dict data) as [s|e|] eqn:Hfrom; cbn; intros [= <- <-].
    + by econstructor.
    + by econstructor.
  - intros [= <- <-]. by constructor.
Qed.

(** A session that [get_session] found is cached afterwards, and the
    sessions directory is as before. *)
Lemma get_session_found sid self s self' :
  get_session sid self = Ret (Some s, self') ->
  _in_memory_sessions self' !! sid = Some s
  /\ session_files self' = session_files self
  /\ get_session sid self' = Ret (Some s, self').
Proof.
  intros H. apply get_session_inv in H.
  inversion H as [s0 Hmem|data s0 Hmem Hfile Hfrom| |]; subst.
  - split; [exact Hmem|]. split; [reflexivity|].
    unfold get_session. by rewrite Hmem.
  - cbn. rewrite lookup_insert_eq. split; [reflexivity|].
    split; [reflexivity|].
    unfold get_session. cbn. by rewrite lookup_insert_eq.
Qed.

Lemma get_session_not_found sid self self' :
  get_session sid self = Ret (None, self') -> self' = self.
Proof. intros H. apply get_session_inv in H. by inversion H. Qed.

Lemma get_session_cached sid self s :
  _in_memory_sessions self !! sid = Some s ->
  get_session sid self = Ret (Some s, self).
Proof. intros H. unfold get_session. by rewrite H. Qed.

(** [add_uploaded_video] on a session that is there. *)
Lemma add_uploaded_video_found sid video_path frame_path disk self s self1 :
  get_session sid self = Ret (Some s, self1) ->
  add_uploaded_video sid video_path frame_path disk self
  = Ret (true, _save_session disk (append_upload video_path frame_path s)
                 (cache sid (append_upload video_path frame_path s) self1)).
Proof. intros H. unfold add_uploaded_video. rewrite H. reflexivity. Qed.

Lemma add_uploaded_video_inv sid video_path frame_path disk self r self' :
  add_uploaded_video sid video_path frame_path disk self = Ret (r, self') ->
  (r = false /\ self' = self /\ get_session sid self = Ret (None, self))
  \/ exists s self1,
       r = true
       /\ get_session sid self = Ret (Some s, self1)
       /\ self' = _save_session disk (append_upload video_path frame_path s)
                    (cache sid (append_upload video_path frame_path s) self1).
Proof.
  unfold add_uploaded_video.
  destruct (get_session sid self) as [[[s|] self1]|e|] eqn:Hget; cbn;
    try discriminate.
  - intros [= <- <-]. right. by exists s, self1.
  - intros [= <- <-]. left.
    pose proof (get_session_not_found _ _ _ Hget) as ->. done.
Qed.

Lemma in_memory_save disk s self :
  _in_memory_sessions (_save_session disk s self)
  = _in_memory_sessions self.
Proof. by destruct disk. Qed.

Lemma append_upload_fields video_path frame_path s :
  let s' := append_upload video_path frame_path s in
  uploaded_videos s' = uploaded_videos s ++ [video_path]
  /\ last_frames s' = last_frames s ++ [frame_path]
  /\ current_step s'
     = (if current_step s <? num_clips s then current_step s + 1
        else current_step s)
  /\ num_clips s' = num_clips s
  /\ session_id s' = session_id s
  /\ prompts s' = prompts s.
Proof. by destruct s. Qed.

Lemma append_upload_inv video_path frame_path s :
  session_inv s -> session_inv (append_upload video_path frame_path s).
Proof.
  intros [Hlen Hstep].
  destruct (append_upload_fields video_path frame_path s)
    as (Huv & Hlf & Hcs & Hnc & _).
  split.
  - rewrite Huv, Hlf, !length_app, Hlen. reflexivity.
  - rewrite Huv, Hcs, Hnc, length_app. cbn [length]. intros HN.
    specialize (Hstep HN).
    destruct (Z.ltb_spec (current_step s) (num_clips s)); lia.
Qed.

End Store.

(** ** Keyword updates *)

Section Updates.

Implicit Types (s : SessionData) (f : field) (v : pyval) (updates : dict).

Lemma field_of_name_field_name f : field_of_name (field_name f) = Some f.
Proof. by destruct f. Qed.

Lemma field_of_name_Some key f :
  field_of_name key = Some f -> key = field_name f.
Proof.
  unfold field_of_name. intros H.
  apply List.find_some in H as [_ H].
  by apply String.eqb_eq in H.
Qed.

Lemma field_name_inj f1 f2 : field_name f1 = field_name f2 -> f1 = f2.
Proof.
  intros H. apply (f_equal field_of_name) in H.
  rewrite !field_of_name_field_name in H. congruence.
Qed.

Lemma hasattr_field f : hasattr (field_name f) = true.
Proof. by destruct f. Qed.

Lemma mapM_as_str_inv (l : list pyval) (x : list string) :
  mapM as_str l = Some x -> VStr <$> x = l.
Proof.
  revert x. induction l as [|v l IH]; intros x; cbn.
  - by intros [= <-].
  - destruct v; cbn; try discriminate.
    destruct (mapM as_str l) as [y|]; cbn; [|discriminate].
    intros [= <-]. cbn. by rewrite (IH y).
Qed.

Lemma as_str_list_inv v x : as_str_list v = Some x -> of_str_list x = v.
Proof.
  destruct v; cbn; try discriminate.
  intros H. unfold of_str_list. by rewrite (mapM_as_str_inv _ _ H).
Qed.

Lemma as_str_inv v x : as_str v = Some x -> VStr x = v.
Proof. destruct v; cbn; congruence. Qed.

Lemma as_int_inv v x : as_int v = Some x -> VInt x = v.
Proof. destruct v; cbn; congruence. Qed.

(** [setattr] on a field, with a value of its type: the field holds the
    value afterwards, the other fields are as they were. *)
Lemma set_field_typed f v s :
  has_type f v = true ->
  exists s', set_field f v s = Some s'
             /\ get_field f s' = v
             /\ forall f', f' <> f -> get_field f' s' = get_field f' s.
Proof.
  intros Ht. destruct s as [sid sd img pr cs uv lf nc key].
  destruct f; cbn in Ht; apply bool_decide_eq_true in Ht as [x Hx];
    cbn; rewrite Hx; cbn; eexists; (split; [reflexivity|]);
    (split; [first [ by apply as_str_list_inv | by apply as_str_inv
                   | by apply as_int_inv ]
            | intros f' Hf'; destruct f'; try reflexivity; congruence ]).
Qed.

Lemma set_field_untyped f v s :
  has_type f v = false -> set_field f v s = None.
Proof.
  intros Ht. destruct s as [sid sd img pr cs uv lf nc key].
  destruct f; cbn in Ht; apply bool_decide_eq_false in Ht;
    cbn;
    match goal with
    | |- context [as_str v] => destruct (as_str v) eqn:E
    | |- context [as_int v] => destruct (as_int v) eqn:E
    | |- context [as_str_list v] => destruct (as_str_list v) eqn:E
    end; try reflexivity; exfalso; apply Ht; eauto.
Qed.

Lemma dict_lookup_app key (d1 d2 : dict) :
  dict_lookup key (d1 ++ d2)
  = match dict_lookup key d1 with
    | Some x => Some x
    | None => dict_lookup key d2
    end.
Proof.
  unfold dict_lookup.
  induction d1 as [|[k x] d1 IH]; cbn; [done|].
  destruct (String.eqb k key); [done|]. exact IH.
Qed.

Lemma bound_to_cons key k v updates :
  bound_to key ((k, v) :: updates)
  = match bound_to key updates with
    | Some x => Some x
    | None => if String.eqb k key then Some v else None
    end.
Proof.
  unfold bound_to. cbn [rev]. rewrite dict_lookup_app.
  destruct (dict_lookup key (rev updates)); [done|].
  unfold dict_lookup. cbn. by destruct (String.eqb k key).
Qed.

Lemma well_typed_cons k v updates :
  well_typed ((k, v) :: updates)
  = match field_of_name k with
    | Some f => has_type f v
    | None => negb (hasattr k)
    end && well_typed updates.
Proof. reflexivity. Qed.

Lemma keeps_progress_cons k v updates :
  keeps_progress ((k, v) :: updates)
  = bool_decide (k ∉ progress_fields) && keeps_progress updates.
Proof. reflexivity. Qed.

(** The update loop on keyword arguments of the typed fragment: every field
    ends with the value bound to its name, or keeps its value when its name
    is not bound. *)
Lemma apply_updates_typed updates s :
  well_typed updates = true ->
  exists s',
    apply_updates updates s = Ret s'
    /\ forall f, get_field f s'
                 = from_option id (get_field f s)
                     (bound_to (field_name f) updates).
Proof.
  revert s. induction updates as [|[k v] updates IH]; intros s Hwt.
  { exists s. split; [done|]. by intros f. }
  rewrite well_typed_cons in Hwt. apply andb_true_iff in Hwt as [Hkv Hwt].
  cbn [apply_updates].
  destruct (field_of_name k) as [f0|] eqn:Hk.
  - pose proof (field_of_name_Some _ _ Hk) as ->.
    rewrite hasattr_field. unfold setattr. rewrite Hk.
    destruct (set_field_typed f0 v s Hkv) as (s1 & -> & Hset & Hother).
    cbn [mbind py_bind bind]. destruct (IH s1 Hwt) as (s' & -> & Hs').
    exists s'. split; [done|]. intros f.
    rewrite Hs', bound_to_cons.
    destruct (bound_to (field_name f) updates); [done|]. cbn.
    destruct (String.eqb_spec (field_name f0) (field_name f)) as [E|E].
    + apply field_name_inj in E as <-. done.
    + cbn. apply Hother. congruence.
  - apply negb_true_iff in Hkv. rewrite Hkv.
    destruct (IH s Hwt) as (s' & -> & Hs').
    exists s'. split; [done|]. intros f.
    rewrite Hs', bound_to_cons.
    destruct (bound_to (field_name f) updates); [done|].
    destruct (String.eqb_spec k (field_name f)) as [->|E]; [|done].
    by rewrite field_of_name_field_name in Hk.
Qed.

(** Outside the typed fragment the loop is stuck, so [well_typed] is exactly
    the condition under which the model follows the code. *)
Lemma apply_updates_stuck updates s :
  well_typed updates = false -> apply_updates updates s = Stuck.
Proof.
  revert s. induction updates as [|[k v] updates IH]; intros s Hwt;
    [discriminate|].
  rewrite well_typed_cons in Hwt. cbn [apply_updates].
  destruct (field_of_name k) as [f0|] eqn:Hk.
  - pose proof (field_of_name_Some _ _ Hk) as ->.
    rewrite hasattr_field. unfold setattr. rewrite Hk.
    destruct (has_type f0 v) eqn:Ht.
    + destruct (set_field_typed f0 v s Ht) as (s1 & -> & _). cbn.
      by apply IH.
    + by rewrite (set_field_untyped _ _ _ Ht).
  - destruct (hasattr k) eqn:Hh; cbn in Hwt.
    + unfold setattr. by rewrite Hk.
    + by apply IH.
Qed.

(** Updates that name no progress field leave the progress of a session as
    it was. *)
Lemma apply_updates_keeps_progress updates s s' :
  keeps_progress updates = true ->
  apply_updates updates s = Ret s' ->
  current_step s' = current_step s
  /\ uploaded_videos s' = uploaded_videos s
  /\ last_frames s' = last_frames s
  /\ num_clips s' = num_clips s.
Proof.
  revert s. induction updates as [|[k v] updates IH]; intros s Hk.
  { by intros [= <-]. }
  rewrite keeps_progress_cons in Hk. apply andb_true_iff in Hk as [Hkv Hk].
  apply bool_decide_eq_true in Hkv.
  cbn [apply_updates]. destruct (hasattr k); [|by apply IH].
  unfold setattr.
  destruct (field_of_name k) as [f0|] eqn:Hf; [|discriminate].
  apply field_of_name_Some in Hf as ->.
  destruct (set_field f0 v s) as [s1|] eqn:Hset; [|discriminate].
  cbn. intros Hrest. destruct (IH s1 Hk Hrest) as (-> & -> & -> & ->).
  destruct s as [sid sd img pr cs uv lf nc key].
  destruct f0; cbn in Hset;
    try (exfalso; apply Hkv; apply (bool_decide_unpack _); vm_compute;
         reflexivity);
    match type of Hset with
    | context [as_str v] => destruct (as_str v)
    | context [as_int v] => destruct (as_int v)
    | context [as_str_list v] => destruct (as_str_list v)
    end; cbn in Hset; try discriminate; by injection Hset as <-.
Qed.

End Updates.

(** ** The invariant of the store *)

Section Invariant.

Implicit Types (s : SessionData) (self : SessionManager) (sid : string).


Lemma store_inv_init : store_inv (__init__ ∅).
Proof. split; intros sid x; cbn; by rewrite lookup_empty. Qed.

Lemma store_inv_cache sid s self :
  session_inv s -> store_inv self -> store_inv (cache sid s self).
Proof.
  intros Hs [Hmem Hfiles]. split; [|exact Hfiles].
  intros sid' s'. cbn. rewrite lookup_insert.
  case_decide; [by intros [= <-]|by apply Hmem].
Qed.

Lemma store_inv_save disk s self :
  session_inv s -> store_inv self -> store_inv (_save_session disk s self).
Proof.
  intros Hs [Hmem Hfiles]. destruct disk; [|done|].
  - split; [exact Hmem|].
    intros sid' data. cbn. rewrite lookup_insert.
    case_decide; [intros [= <-]; by exists s|by apply Hfiles].
  - split; [exact Hmem|].
    intros sid' data. cbn. rewrite lookup_delete.
    case_decide; [done|by apply Hfiles].
Qed.

Lemma session_inv_loaded s s' :
  from_dict (to_dict s) = Ret s' -> session_inv s -> session_inv s'.
Proof.
  rewrite from_dict_to_dict. intros [= <-]. by destruct s.
Qed.

Lemma store_inv_get sid self found self' :
  store_inv self ->
  get_session sid self = Ret (found, self') ->
  store_inv self' /\ forall s, found = Some s -> session_inv s.
Proof.
  intros Hinv Hget. apply get_session_inv in Hget.
  destruct Hget as [s Hs|data s Hmem Hfile Hfrom| |].
  - split; [done|]. intros ? [= <-]. by eapply (proj1 Hinv).
  - destruct (proj2 Hinv _ _ Hfile) as (s0 & -> & Hs0).
    pose proof (session_inv_loaded _ _ Hfrom Hs0) as Hs.
    split; [by apply store_inv_cache|]. by intros ? [= <-].
  - split; [done|]. discriminate.
  - split; [done|]. discriminate.
Qed.

Lemma session_inv_progress s s' :
  current_step s' = current_step s ->
  uploaded_videos s' = uploaded_videos s ->
  last_frames s' = last_frames s ->
  num_clips s' = num_clips s ->
  session_inv s -> session_inv s'.
Proof. unfold session_inv. by intros -> -> -> ->. Qed.

(** Every admissible call keeps the invariant. *)
Lemma store_inv_run_op o self self' :
  admissible o = true ->
  store_inv self -> run_op o self = Ret self' -> store_inv self'.
Proof.
  intros Hadm Hinv.
  destruct o
    as [uuid w sd img pr nc key|sid|sid updates w|sid vp fp w|sid|sid|sid|];
    cbn [run_op].
  - intros [= <-]. cbn.
    assert (session_inv (mkSessionData uuid sd img pr 1 [] [] nc key)) as Hs.
    { split; cbn; [done|lia]. }
    by apply store_inv_save, store_inv_cache.
  - destruct (get_session sid self) as [[found self1]| |] eqn:Hget;
      cbn; try discriminate.
    intros [= <-]. by eapply store_inv_get.
  - unfold update_session.
    destruct (get_session sid self) as [[[s|] self1]| |] eqn:Hget;
      cbn; try discriminate.
    + destruct (store_inv_get _ _ _ _ Hinv Hget) as [Hinv1 Hs].
      destruct (apply_updates updates s) as [s'| |] eqn:Hupd;
        cbn; try discriminate.
      intros [= <-].
      destruct (apply_updates_keeps_progress _ _ _ Hadm Hupd)
        as (H1 & H2 & H3 & H4).
      assert (session_inv s') as Hs'.
      { eapply session_inv_progress; eauto. }
      by apply store_inv_save, store_inv_cache.
    + intros [= <-]. by eapply store_inv_get.
  - unfold add_uploaded_video.
    destruct (get_session sid self) as [[[s|] self1]| |] eqn:Hget;
      cbn; try discriminate.
    + destruct (store_inv_get _ _ _ _ Hinv Hget) as [Hinv1 Hs].
      intros [= <-].
      assert (session_inv (append_upload vp fp s)) as Hs'.
      { apply append_upload_inv. by apply Hs. }
      by apply store_inv_save, store_inv_cache.
    + intros [= <-]. by eapply store_inv_get.
  - unfold get_current_image_path.
    destruct (get_session sid self) as [[[s|] self1]| |] eqn:Hget;
      cbn; try discriminate.
    + repeat case_match; cbn; intros [= <-]; by eapply store_inv_get.
    + intros [= <-]. by eapply store_inv_get.
  - unfold is_complete.
    destruct (get_session sid self) as [[[s|] self1]| |] eqn:Hget;
      cbn; try discriminate; intros [= <-]; by eapply store_inv_get.
  - intros [= <-]. split; [exact (proj1 Hinv)|].
    intros sid' data. cbn. rewrite lookup_delete.
    case_decide; [done|by apply (proj2 Hinv)].
  - intros [= <-]. split; [|exact (proj2 Hinv)].
    intros sid s. cbn. by rewrite lookup_empty.
Qed.

Lemma store_inv_run_ops ops self self' :
  forallb admissible ops = true ->
  store_inv self -> run_ops ops self = Ret self' -> store_inv self'.
Proof.
  revert self. induction ops as [|o ops IH]; intros self Hadm Hinv.
  { by intros [= <-]. }
  cbn in Hadm. apply andb_true_iff in Hadm as [Ho Hadm].
  cbn [run_ops].
  destruct (run_op o self) as [self1| |] eqn:Hop; cbn; try discriminate.
  apply IH; [done|]. by eapply store_inv_run_op.
Qed.

Lemma reachable_store_inv self : reachable self -> store_inv self.
Proof.
  intros (ops & Hadm & Hrun).
  eapply store_inv_run_ops; [exact Hadm|apply store_inv_init|exact Hrun].
Qed.

Lemma run_ops_app ops1 ops2 self :
  run_ops (ops1 ++ ops2) self
  = (self' ← run_ops ops1 self; run_ops ops2 self').
Proof.
  revert self. induction ops1 as [|o ops1 IH]; intros self; [done|].
  cbn [run_ops app]. destruct (run_op o self); cbn; [apply IH|done..].
Qed.

(** One more admissible call from a reachable state reaches a state. *)
Lemma reachable_step o self self' :
  reachable self -> admissible o = true -> run_op o self = Ret self' ->
  reachable self'.
Proof.
  intros (ops & Hadm & Hrun) Ho Hop.
  exists (ops ++ [o]). split.
  - rewrite forallb_app, Hadm. cbn. by rewrite Ho.
  - rewrite run_ops_app, Hrun. cbn. by rewrite Hop.
Qed.

End Invariant.


Lemma reachable_created num_clips : reachable (Demo.created num_clips).
Proof. exists [Demo.create_op num_clips]. by split. Qed.

Lemma reachable_uploaded_once num_clips :
  reachable (Demo.uploaded_once num_clips).
Proof.
  exists [Demo.create_op num_clips; Demo.upload_op]. split; [done|].
  reflexivity.
Qed.

(** C1. In every state the store reaches, a successful [add_uploaded_video]
    leaves the session with as many frames as videos; when its clip count
    [N] is at least 1, its current step is [min (videos + 1) N], which never
    exceeds [N]. *)
Theorem add_uploaded_video_session_inv
    (sid video_path frame_path : string) (disk : disk_write)
    (self self' : SessionManager) :
  reachable self ->
  add_uploaded_video sid video_path frame_path disk self = Ret (true, self') ->
  exists s',
    _in_memory_sessions self' !! sid = Some s'
    /\ length (uploaded_videos s') = length (last_frames s')
    /\ (1 <= num_clips s' ->
        current_step s'
        = Z.min (Z.of_nat (length (uploaded_videos s')) + 1) (num_clips s')
        /\ current_step s' <= num_clips s').
Proof.
  intros Hreach Hadd.
  assert (reachable self') as Hreach'.
  { apply (reachable_step (OpAdd sid video_path frame_path disk) self);
      [done|done|]. cbn. by rewrite Hadd. }
  apply reachable_store_inv in Hreach' as [Hmem _].
  apply add_uploaded_video_inv in Hadd
    as [(? & _)|(s & self1 & _ & Hget & ->)]; [discriminate|].
  exists (append_upload video_path frame_path s).
  assert (_in_memory_sessions
            (_save_session disk (append_upload video_path frame_path s)
               (cache sid (append_upload video_path frame_path s) self1))
            !! sid = Some (append_upload video_path frame_path s)) as Hin.
  { rewrite in_memory_save. cbn. apply lookup_insert_eq. }
  split; [exact Hin|].
  destruct (Hmem _ _ Hin) as [Hlen Hstep].
  split; [exact Hlen|]. intros HN. specialize (Hstep HN). lia.
Qed.

Lemma add_uploaded_video_session_inv_witness :
  reachable (Demo.created 2)
  /\ add_uploaded_video "u1" "step_1_silent.mp4" "step_1_frame.jpg" WriteOk
       (Demo.created 2)
     = Ret (true, Demo.uploaded_once 2)
  /\ exists s',
       _in_memory_sessions (Demo.uploaded_once 2) !! "u1" = Some s'
       /\ length (uploaded_videos s') = length (last_frames s')
       /\ (1 <= num_clips s' ->
           current_step s'
           = Z.min (Z.of_nat (length (uploaded_videos s')) + 1) (num_clips s')
           /\ current_step s' <= num_clips s').
Proof.
  assert (reachable (Demo.created 2)) as Hreach.
  { exists [Demo.create_op 2]. split; reflexivity. }
  split; [exact Hreach|]. split; [reflexivity|].
  apply (add_uploaded_video_session_inv "u1" "step_1_silent.mp4"
           "step_1_frame.jpg" WriteOk (Demo.created 2) (Demo.uploaded_once 2)).
  - exact Hreach.
  - reflexivity.
Defined.


(** A session created with clip count 0 is complete from the start; an
    upload is accepted, and its current step stays 1, not 0. *)
Lemma unbounded_uploads_fails_for_zero_clips :
  ~ unbounded_uploads_for_every_session.
Proof.
  intros H.
  destruct (H "u1" "step_1_silent.mp4" "step_1_frame.jpg" WriteOk
              (Demo.created 0) (Demo.created 0)
              (mkSessionData "u1" "a cat exploring a garden" "start.jpg"
                 ["p1"; "p2"; "p3"] 1 [] [] 0 "sk-demo"))
    as (self' & s' & Hadd & Hmem & _ & _ & Hstep & _).
  - apply reachable_created.
  - reflexivity.
  - cbn. lia.
  - assert (self' = Demo.uploaded_once 0) as ->.
    { change (add_uploaded_video "u1" "step_1_silent.mp4" "step_1_frame.jpg"
                WriteOk (Demo.created 0))
        with (Ret (true, Demo.uploaded_once 0)) in Hadd.
      congruence. }
    vm_compute in Hmem. injection Hmem as <-. discriminate Hstep.
Qed.

Lemma upload_all_cached sid uploads disk self s :
  _in_memory_sessions self !! sid = Some s ->
  exists self',
    upload_all sid uploads disk self = Ret self'
    /\ _in_memory_sessions self' !! sid
       = Some (foldl (fun s vf => append_upload (fst vf) (snd vf) s) s uploads).
Proof.
  revert self s. induction uploads as [|[v f] uploads IH]; intros self s Hmem.
  { exists self. by split. }
  cbn [upload_all foldl fst snd].
  rewrite (add_uploaded_video_found _ _ _ _ _ _ _
             (get_session_cached _ _ _ Hmem)).
  cbn [mbind py_bind bind]. apply IH.
  rewrite in_memory_save. cbn. apply lookup_insert_eq.
Qed.

Lemma foldl_append_upload uploads s :
  let s' := foldl (fun s vf => append_upload (fst vf) (snd vf) s) s uploads in
  uploaded_videos s' = uploaded_videos s ++ uploads.*1
  /\ last_frames s' = last_frames s ++ uploads.*2
  /\ num_clips s' = num_clips s
  /\ (session_inv s -> session_inv s').
Proof.
  revert s. induction uploads as [|[v f] uploads IH]; intros s; cbn.
  { by rewrite !app_nil_r. }
  destruct (IH (append_upload v f s)) as (Huv & Hlf & Hnc & Hinv).
  destruct (append_upload_fields v f s) as (Huv1 & Hlf1 & _ & Hnc1 & _).
  rewrite Huv, Hlf, Hnc, Huv1, Hlf1, Hnc1, <- !app_assoc.
  split; [done|]. split; [done|]. split; [done|].
  intros Hs. by apply Hinv, append_upload_inv.
Qed.

(** X7. The closed form of a session's progress: created with clip count
    [N >= 1] in any store, then given [k] uploads, the session holds the [k]
    videos and frames in upload order and stands at step [min (k + 1) N]. *)
Lemma create_then_uploads
    (uuid : string) (disk : disk_write) (sd img : string) (pr : list string)
    (N : Z) (key : string) (uploads : list (string * string))
    (self : SessionManager) :
  1 <= N ->
  exists self' s',
    upload_all uuid uploads disk
      (snd (create_session uuid disk sd img pr N key self)) = Ret self'
    /\ _in_memory_sessions self' !! uuid = Some s'
    /\ uploaded_videos s' = uploads.*1
    /\ last_frames s' = uploads.*2
    /\ num_clips s' = N
    /\ current_step s' = Z.min (Z.of_nat (length uploads) + 1) N.
Proof.
  intros HN.
  set (s0 := mkSessionData uuid sd img pr 1 [] [] N key).
  destruct (upload_all_cached uuid uploads disk
              (snd (create_session uuid disk sd img pr N key self)) s0)
    as (self' & Hrun & Hmem).
  { cbn. rewrite in_memory_save. cbn. apply lookup_insert_eq. }
  destruct (foldl_append_upload uploads s0) as (Huv & Hlf & Hnc & Hinv).
  eexists _, _. split; [exact Hrun|]. split; [exact Hmem|].
  split; [exact Huv|]. split; [exact Hlf|]. split; [exact Hnc|].
  destruct Hinv as [_ Hstep]; [split; cbn; [done|lia]|].
  rewrite Hnc in Hstep. rewrite (Hstep HN), Huv. cbn.
  by rewrite length_fmap.
Qed.

(** The first-upload scenario: the step counter moves to 2, one video and
    one frame are held, and the image of step 2 is the first frame. *)
Example first_upload_scenario :
  exists s,
    _in_memory_sessions (Demo.uploaded_once 3) !! "u1" = Some s
    /\ current_step s = 2
    /\ length (uploaded_videos s) = 1%nat
    /\ length (last_frames s) = 1%nat
    /\ get_current_image_path "u1" (Demo.uploaded_once 3)
       = Ret (last_frames s !! 0%nat, Demo.uploaded_once 3).
Proof. eexists. repeat split. Qed.

(** [is_complete] answers [True] exactly for a known session with at least
    as many videos as clips. *)
Lemma is_complete_true_iff sid self self1 :
  is_complete sid self = Ret (true, self1)
  <-> exists s, get_session sid self = Ret (Some s, self1)
                /\ num_clips s <= Z.of_nat (length (uploaded_videos s)).
Proof.
  unfold is_complete.
  destruct (get_session sid self) as [[[s|] self2]| |]; cbn.
  - split.
    + intros [= H <-]. exists s. split; [done|]. by apply Z.leb_le.
    + intros (s0 & [= <- <-] & H). by rewrite (proj2 (Z.leb_le _ _) H).
  - split; [discriminate|]. by intros (s0 & [=] & _).
  - split; [discriminate|]. by intros (s0 & [=] & _).
  - split; [discriminate|]. by intros (s0 & [=] & _).
Qed.

(** C8, amended. For a session with clip count [N >= 1] in a reachable
    store, once the number of uploaded videos has reached [N] a further
    [add_uploaded_video] still succeeds and appends to both lists, which are
    then longer than [N]; the current step was [N] and stays [N], and the
    session is complete before and after. *)
Theorem add_uploaded_video_unbounded
    (sid video_path frame_path : string) (disk : disk_write)
    (self self1 : SessionManager) (s : SessionData) :
  reachable self ->
  get_session sid self = Ret (Some s, self1) ->
  1 <= num_clips s ->
  num_clips s <= Z.of_nat (length (uploaded_videos s)) ->
  exists self' s',
    add_uploaded_video sid video_path frame_path disk self
    = Ret (true, self')
    /\ _in_memory_sessions self' !! sid = Some s'
    /\ uploaded_videos s' = uploaded_videos s ++ [video_path]
    /\ last_frames s' = last_frames s ++ [frame_path]
    /\ num_clips s' = num_clips s
    /\ num_clips s < Z.of_nat (length (uploaded_videos s'))
    /\ num_clips s < Z.of_nat (length (last_frames s'))
    /\ current_step s = num_clips s
    /\ current_step s' = num_clips s
    /\ is_complete sid self = Ret (true, self1)
    /\ is_complete sid self' = Ret (true, self').
Proof.
  intros Hreach Hget HN Hfull.
  apply reachable_store_inv in Hreach.
  destruct (store_inv_get _ _ _ _ Hreach Hget) as [_ Hs].
  destruct (Hs s eq_refl) as [Hlen Hstep]. specialize (Hstep HN).
  destruct (append_upload_fields video_path frame_path s)
    as (Huv & Hlf & Hcs & Hnc & _).
  set (s' := append_upload video_path frame_path s) in *.
  exists (_save_session disk s' (cache sid s' self1)), s'.
  assert (_in_memory_sessions (_save_session disk s' (cache sid s' self1))
            !! sid = Some s') as Hin.
  { rewrite in_memory_save. cbn. apply lookup_insert_eq. }
  assert (current_step s = num_clips s) as Hat by lia.
  assert (current_step s' = num_clips s) as Hat'.
  { rewrite Hcs, Hat, Z.ltb_irrefl. done. }
  repeat split.
  - by apply add_uploaded_video_found.
  - exact Hin.
  - exact Huv.
  - exact Hlf.
  - exact Hnc.
  - rewrite Huv, length_app. cbn. lia.
  - rewrite Hlf, length_app, <- Hlen. cbn. lia.
  - exact Hat.
  - exact Hat'.
  - unfold is_complete. rewrite Hget. cbn.
    by rewrite (proj2 (Z.leb_le _ _) Hfull).
  - unfold is_complete. rewrite (get_session_cached _ _ _ Hin). cbn.
    rewrite Hnc, Huv, length_app. cbn.
    replace (num_clips s <=? _) with true; [done|].
    symmetry. apply Z.leb_le. lia.
Qed.

Lemma add_uploaded_video_unbounded_witness :
  exists self' s',
    add_uploaded_video "u1" "step_2_silent.mp4" "step_2_frame.jpg" WriteOk
      (Demo.uploaded_once 1)
    = Ret (true, self')
    /\ _in_memory_sessions self' !! "u1" = Some s'
    /\ uploaded_videos s' = ["step_1_silent.mp4"; "step_2_silent.mp4"]
    /\ last_frames s' = ["step_1_frame.jpg"; "step_2_frame.jpg"]
    /\ num_clips s' = 1
    /\ 1 < Z.of_nat (length (uploaded_videos s'))
    /\ 1 < Z.of_nat (length (last_frames s'))
    /\ 1 = 1
    /\ current_step s' = 1
    /\ is_complete "u1" (Demo.uploaded_once 1)
       = Ret (true, Demo.uploaded_once 1)
    /\ is_complete "u1" self' = Ret (true, self').
Proof.
  apply (add_uploaded_video_unbounded "u1" "step_2_silent.mp4"
           "step_2_frame.jpg" WriteOk (Demo.uploaded_once 1)
           (Demo.uploaded_once 1)
           (mkSessionData "u1" "a cat exploring a garden" "start.jpg"
              ["p1"; "p2"; "p3"] 1 ["step_1_silent.mp4"]
              ["step_1_frame.jpg"] 1 "sk-demo")).
  - exists [Demo.create_op 1; Demo.upload_op]. split; reflexivity.
  - reflexivity.
  - cbn. lia.
  - cbn. lia.
Defined.

(** C7. [update_session] answers [False] for an identifier [get_session]
    does not know, and changes nothing then.  For a known identifier and
    keyword arguments of the typed fragment it answers [True]; every field
    named by a keyword holds the value bound to it, every other field keeps
    its value; the updated record is cached under the identifier and handed
    to [_save_session], which, when the file can be written, leaves the
    record's saved form in the file named after the record's
    [session_id]. *)
Theorem update_session_spec
    (sid : string) (updates : dict) (disk : disk_write)
    (self self1 : SessionManager) (found : option SessionData) :
  get_session sid self = Ret (found, self1) ->
  match found with
  | None =>
      self1 = self
      /\ update_session sid updates disk self = Ret (false, self)
  | Some s =>
      well_typed updates = true ->
      exists s' self',
        update_session sid updates disk self = Ret (true, self')
        /\ (forall f, get_field f s'
                      = from_option id (get_field f s)
                          (bound_to (field_name f) updates))
        /\ _in_memory_sessions self' !! sid = Some s'
        /\ self' = _save_session disk s' (cache sid s' self1)
        /\ (disk = WriteOk ->
            session_files self' !! session_id s' = Some (to_dict s'))
  end.
Proof.
  intros Hget. destruct found as [s|].
  - intros Hwt.
    destruct (apply_updates_typed updates s Hwt) as (s' & Hupd & Hfields).
    exists s', (_save_session disk s' (cache sid s' self1)).
    split; [|split; [exact Hfields|split; [|split; [reflexivity|]]]].
    + unfold update_session. rewrite Hget. cbn. rewrite Hupd. reflexivity.
    + rewrite in_memory_save. cbn. apply lookup_insert_eq.
    + intros ->. cbn. apply lookup_insert_eq.
  - pose proof (get_session_not_found _ _ _ Hget) as ->.
    split; [reflexivity|].
    unfold update_session. rewrite Hget. reflexivity.
Qed.

Lemma update_session_spec_witness :
  exists s' self',
    update_session "u1"
      [("starting_image_path", VStr "uploads/u1/starting_image.jpg")]
      WriteOk (Demo.created 3)
    = Ret (true, self')
    /\ starting_image_path s' = "uploads/u1/starting_image.jpg"
    /\ scene_description s' = "a cat exploring a garden"
    /\ _in_memory_sessions self' !! "u1" = Some s'
    /\ session_files self' !! "u1" = Some (to_dict s').
Proof.
  destruct (update_session_spec "u1"
              [("starting_image_path", VStr "uploads/u1/starting_image.jpg")]
              WriteOk (Demo.created 3) (Demo.created 3)
              (Some (mkSessionData "u1" "a cat exploring a garden"
                       "start.jpg" ["p1"; "p2"; "p3"] 1 [] [] 3 "sk-demo"))
              eq_refl eq_refl)
    as (s' & self' & Hupd & Hfields & Hmem & Hself & Hfile).
  exists s', self'.
  pose proof (Hfields F_starting_image_path) as H1.
  pose proof (Hfields F_scene_description) as H2.
  pose proof (Hfields F_session_id) as H3.
  cbn in H1, H2, H3.
  injection H1 as H1. injection H2 as H2. injection H3 as H3.
  specialize (Hfile eq_refl). rewrite H3 in Hfile.
  repeat split; assumption.
Defined.

(** Keyword arguments that name no attribute are skipped by the loop. *)
Lemma apply_updates_no_attr (updates : dict) (s : SessionData) :
  forallb (fun kv => negb (hasattr (fst kv))) updates = true ->
  apply_updates updates s = Ret s.
Proof.
  induction updates as [|[k v] updates IH]; [done|].
  cbn [forallb fst]. intros [Hk Hrest]%andb_true_iff.
  apply negb_true_iff in Hk. cbn [apply_updates]. rewrite Hk. by apply IH.
Qed.

(** C10. On a known identifier, [update_session] skips every keyword that
    names no attribute of the record: a call whose keywords all are of that
    kind still answers [True], and the cached record is the one that was
    found, field for field. *)
Theorem update_session_ignores_unknown
    (sid : string) (updates : dict) (disk : disk_write)
    (self self1 : SessionManager) (s : SessionData) :
  get_session sid self = Ret (Some s, self1) ->
  forallb (fun kv => negb (hasattr (fst kv))) updates = true ->
  exists self',
    update_session sid updates disk self = Ret (true, self')
    /\ _in_memory_sessions self' !! sid = Some s.
Proof.
  intros Hget Hno.
  exists (_save_session disk s (cache sid s self1)). split.
  - unfold update_session. rewrite Hget. cbn.
    by rewrite (apply_updates_no_attr _ _ Hno).
  - rewrite in_memory_save. cbn. apply lookup_insert_eq.
Qed.

Lemma update_session_ignores_unknown_witness :
  exists self',
    update_session "u1" [("colour", VStr "red"); ("step", VInt 7)] WriteOk
      (Demo.created 3)
    = Ret (true, self')
    /\ _in_memory_sessions self' !! "u1"
       = Some (mkSessionData "u1" "a cat exploring a garden" "start.jpg"
                 ["p1"; "p2"; "p3"] 1 [] [] 3 "sk-demo").
Proof.
  apply (update_session_ignores_unknown "u1"
           [("colour", VStr "red"); ("step", VInt 7)] WriteOk
           (Demo.created 3) (Demo.created 3)).
  - reflexivity.
  - reflexivity.
Defined.

(** ** Final concatenation *)



(** With no upload, steps 1 to 3 are missing; after one upload, steps 2 and
    3; the refusal is the same. *)
Lemma refusal_does_not_report_missing_steps :
  ~ refusal_reports_missing_steps.
Proof.
  intros [report H].
  destruct (H quiet_world "u1" (Demo.created 3) (Demo.created 3)
              (mkSessionData "u1" "a cat exploring a garden" "start.jpg"
                 ["p1"; "p2"; "p3"] 1 [] [] 3 "sk-demo")
              (mkHandled (Redirect (ep_plan "u1"))
                 [Flash "Not all videos have been uploaded" "error"]
                 (Demo.created 3) []))
    as [_ H0]; [reflexivity|cbn; lia|reflexivity|].
  destruct (H quiet_world "u1" (Demo.uploaded_once 3) (Demo.uploaded_once 3)
              (mkSessionData "u1" "a cat exploring a garden" "start.jpg"
                 ["p1"; "p2"; "p3"] 2 ["step_1_silent.mp4"]
                 ["step_1_frame.jpg"] 3 "sk-demo")
              (mkHandled (Redirect (ep_plan "u1"))
                 [Flash "Not all videos have been uploaded" "error"]
                 (Demo.uploaded_once 3) []))
    as [_ H1]; [reflexivity|cbn; lia|reflexivity|].
  cbn in H0, H1. rewrite H0 in H1. discriminate H1.
Qed.

(** Whenever [is_complete] answers [False], for an unknown session as well,
    the handler answers without running the tool. *)
Lemma generate_final_incomplete_no_tool w sid self self1 :
  is_complete sid self = Ret (false, self1) ->
  exists h, generate_final w sid self = Ret h /\ h_calls h = [].
Proof.
  unfold is_complete, generate_final.
  destruct (get_session sid self) as [[[s|] self2]| |] eqn:Hget; cbn;
    try discriminate.
  - intros [= Hleb <-].
    destruct (get_session_found _ _ _ _ Hget) as (_ & _ & Hget1).
    unfold is_complete. rewrite Hget1. cbn. rewrite Hleb. cbn. by eexists.
  - intros _. by eexists.
Qed.

(** C3, amended. For a session with fewer uploaded videos than its clip
    count, [generate_final] runs no external tool and leaves the session as
    it is; it flashes the fixed message "Not all videos have been uploaded"
    and redirects to the plan page.  The refusal does not name the missing
    steps. *)
Theorem generate_final_refuses_incomplete
    (w : world) (sid : string) (self self1 : SessionManager)
    (s : SessionData) :
  get_session sid self = Ret (Some s, self1) ->
  Z.of_nat (length (uploaded_videos s)) < num_clips s ->
  is_complete sid self = Ret (false, self1)
  /\ generate_final w sid self
     = Ret (mkHandled (Redirect (ep_plan sid))
              [Flash "Not all videos have been uploaded" "error"] self1 []).
Proof.
  intros Hget Hlt.
  destruct (get_session_found _ _ _ _ Hget) as (_ & _ & Hget1).
  assert ((num_clips s <=? Z.of_nat (length (uploaded_videos s))) = false)
    as Hleb by (apply Z.leb_gt; lia).
  split.
  - unfold is_complete. rewrite Hget. cbn. by rewrite Hleb.
  - unfold generate_final. rewrite Hget. cbn.
    unfold is_complete. rewrite Hget1. cbn. rewrite Hleb. reflexivity.
Qed.

Lemma generate_final_refuses_incomplete_witness :
  is_complete "u1" (Demo.uploaded_once 3) = Ret (false, Demo.uploaded_once 3)
  /\ generate_final quiet_world "u1" (Demo.uploaded_once 3)
     = Ret (mkHandled (Redirect (ep_plan "u1"))
              [Flash "Not all videos have been uploaded" "error"]
              (Demo.uploaded_once 3) []).
Proof.
  apply (generate_final_refuses_incomplete quiet_world "u1"
           (Demo.uploaded_once 3) (Demo.uploaded_once 3)
           (mkSessionData "u1" "a cat exploring a garden" "start.jpg"
              ["p1"; "p2"; "p3"] 2 ["step_1_silent.mp4"]
              ["step_1_frame.jpg"] 3 "sk-demo")).
  - reflexivity.
  - cbn. lia.
Defined.

(** ** The prompt planner *)

Section Planner.

Variable requests_post : string -> string -> string -> http_response.
Variable json_loads : string -> option pyval.

Lemma append_assoc (a b c : string) : (a +:+ b) +:+ c = a +:+ b +:+ c.
Proof.
  induction a as [|x a IH]; [done|].
  change (String x ((a +:+ b) +:+ c) = String x (a +:+ b +:+ c)).
  by f_equal.
Qed.

Lemma fallback_prompt_contains scene_description num_clips i :
  contains (fallback_prompt scene_description num_clips i) scene_description.
Proof.
  exists "".
  exists (" (deel " +:+ str_of_int (i + 1) +:+ " van " +:+ str_of_int num_clips
          +:+ ")").
  reflexivity.
Qed.

Lemma fallback_prompt_endswith scene_description num_clips i :
  endswith (fallback_prompt scene_description num_clips i)
    ("(deel " +:+ str_of_int (i + 1) +:+ " van " +:+ str_of_int num_clips
     +:+ ")").
Proof.
  exists (scene_description +:+ " "). unfold fallback_prompt.
  rewrite append_assoc. reflexivity.
Qed.

Lemma py_get_not_stuck v key default : py_get v key default <> Stuck.
Proof. by destruct v. Qed.

Lemma py_index0_not_stuck v : py_index0 v <> Stuck.
Proof. destruct v as [| | | |[|c s]|[|x l]|]; done. Qed.

(** The primary strategy stays in the typed fragment: it returns or
    raises. *)
Lemma call_openai_gpt_not_stuck api_key scene_description num_clips :
  call_openai_gpt requests_post json_loads api_key scene_description num_clips
  <> Stuck.
Proof.
  unfold call_openai_gpt.
  destruct (resp_ok _); cbn; [|discriminate].
  destruct (resp_json _) as [data|]; cbn; [|discriminate].
  destruct (py_get data _ _) as [choices| |] eqn:H1; cbn;
    [|discriminate|by apply py_get_not_stuck in H1].
  destruct (py_index0 choices) as [choice| |] eqn:H2; cbn;
    [|discriminate|by apply py_index0_not_stuck in H2].
  destruct (py_get choice _ _) as [message| |] eqn:H3; cbn;
    [|discriminate|by apply py_get_not_stuck in H3].
  destruct (py_get message _ _) as [content| |] eqn:H4; cbn;
    [|discriminate|by apply py_get_not_stuck in H4].
  destruct (truthy content); cbn; [|discriminate].
  destruct content; cbn; try discriminate.
  destruct (json_loads _) as [prompts|]; cbn; [|discriminate].
  destruct prompts; cbn; try discriminate.
  by destruct (Z.of_nat (length l) =? num_clips).
Qed.

(** What a caller of the primary strategy can rely on: a returned value is
    a list of the requested length. *)
Lemma call_openai_gpt_length api_key scene_description num_clips l :
  call_openai_gpt requests_post json_loads api_key scene_description num_clips
  = Ret l ->
  Z.of_nat (length l) = num_clips.
Proof.
  unfold call_openai_gpt.
  destruct (resp_ok _); cbn; [|discriminate].
  destruct (resp_json _) as [data|]; cbn; [|discriminate].
  destruct (py_get data _ _) as [choices| |]; cbn; try discriminate.
  destruct (py_index0 choices) as [choice| |]; cbn; try discriminate.
  destruct (py_get choice _ _) as [message| |]; cbn; try discriminate.
  destruct (py_get message _ _) as [content| |]; cbn; try discriminate.
  destruct (truthy content); cbn; [|discriminate].
  destruct content; cbn; try discriminate.
  destruct (json_loads _) as [prompts|]; cbn; [|discriminate].
  destruct prompts as [| | | | |l0|]; cbn; try discriminate.
  destruct (Z.eqb_spec (Z.of_nat (length l0)) num_clips); cbn;
    [|discriminate].
  by intros [= <-].
Qed.

(** The planner never raises: it returns the primary plan or the fallback
    plan. *)
Lemma generate_clip_plan_returns api_key scene_description num_clips :
  exists l,
    generate_clip_plan requests_post json_loads api_key scene_description
      num_clips = Ret l.
Proof.
  unfold generate_clip_plan.
  pose proof (call_openai_gpt_not_stuck api_key scene_description num_clips).
  destruct (call_openai_gpt _ _ _ _ _) as [l|e|]; cbn; by eauto.
Qed.

(** C4. When the primary strategy raises, the planner answers with the
    fallback plan: for a clip count [N >= 1] it has exactly [N] prompts, each
    contains the scene description, and the [i]-th, for [i] from 1 to [N],
    ends with "(deel i van N)". *)
Theorem generate_clip_plan_fallback
    (api_key scene_description : string) (num_clips : Z) (e : exn) :
  1 <= num_clips ->
  call_openai_gpt requests_post json_loads api_key scene_description num_clips
  = Raise e ->
  exists plan : list string,
    generate_clip_plan requests_post json_loads api_key scene_description
      num_clips = Ret (VStr <$> plan)
    /\ Z.of_nat (length plan) = num_clips
    /\ (forall p, p ∈ plan -> contains p scene_description)
    /\ (forall i, 1 <= i <= num_clips ->
          exists p,
            plan !! Z.to_nat (i - 1) = Some p
            /\ endswith p ("(deel " +:+ str_of_int i +:+ " van "
                           +:+ str_of_int num_clips +:+ ")")).
Proof.
  intros HN Hcall.
  exists (fallback_prompt scene_description num_clips <$> seqZ 0 num_clips).
  split; [|split; [|split]].
  - unfold generate_clip_plan. rewrite Hcall. reflexivity.
  - rewrite length_fmap, length_seqZ. lia.
  - intros p [i [-> _]]%list_elem_of_fmap. apply fallback_prompt_contains.
  - intros i Hi.
    exists (fallback_prompt scene_description num_clips (i - 1)). split.
    + rewrite list_lookup_fmap, lookup_seqZ_lt by lia.
      cbn. f_equal. f_equal. lia.
    + pose proof (fallback_prompt_endswith scene_description num_clips (i - 1))
        as H.
      by replace (i - 1 + 1) with i in H by lia.
Qed.

End Planner.


Lemma generate_clip_plan_fallback_witness :
  exists plan : list string,
    generate_clip_plan DemoService.down DemoService.loads "sk-demo"
      "a cat exploring a garden" 3 = Ret (VStr <$> plan)
    /\ Z.of_nat (length plan) = 3
    /\ (forall p, p ∈ plan -> contains p "a cat exploring a garden")
    /\ (forall i, 1 <= i <= 3 ->
          exists p,
            plan !! Z.to_nat (i - 1) = Some p
            /\ endswith p ("(deel " +:+ str_of_int i +:+ " van "
                           +:+ str_of_int 3 +:+ ")")).
Proof.
  apply (generate_clip_plan_fallback DemoService.down DemoService.loads
           "sk-demo" "a cat exploring a garden" 3 RuntimeError).
  - lia.
  - reflexivity.
Defined.

(** The scenario of the specification, evaluated. *)
Example generate_clip_plan_cat :
  generate_clip_plan DemoService.down DemoService.loads "sk-demo"
    "a cat exploring a garden" 3
  = Ret [VStr "a cat exploring a garden (deel 1 van 3)";
         VStr "a cat exploring a garden (deel 2 van 3)";
         VStr "a cat exploring a garden (deel 3 van 3)"].
Proof. reflexivity. Qed.

(** C6. The primary strategy checks that the completion parses as a list
    of the requested length and nothing about its elements: a completion
    [[1, 2, 3]] for three clips is returned as it is, a list of integers. *)
Theorem call_openai_gpt_returns_non_strings :
  call_openai_gpt DemoService.numbers DemoService.loads "sk-demo"
    "a cat exploring a garden" 3
  = Ret [VInt 1; VInt 2; VInt 3]
  /\ as_str_list (VList [VInt 1; VInt 2; VInt 3]) = None
  /\ generate_clip_plan DemoService.numbers DemoService.loads "sk-demo"
       "a cat exploring a garden" 3
     = Ret [VInt 1; VInt 2; VInt 3].
Proof. repeat split. Qed.

(** ** Uploads *)

(** [upload] never looks at the step number it is given when it decides
    whether to record the upload: with an allowed file and a tool that
    succeeds, the video and the frame are appended whatever the step. *)
Lemma upload_appends_at_any_step
    (w : world) (sid filename : string) (step_num : Z)
    (self self1 : SessionManager) (s : SessionData) :
  get_session sid self = Ret (Some s, self1) ->
  filename <> "" ->
  allowed_file filename ALLOWED_VIDEO_EXTENSIONS = true ->
  (forall call, returncode w call = 0) ->
  exists h,
    upload w sid step_num (Some filename) self = Ret h
    /\ _in_memory_sessions (h_manager h) !! sid
       = Some (append_upload (step_file sid step_num "_silent.mp4")
                 (step_file sid step_num "_frame.jpg") s).
Proof.
  intros Hget Hname Hallowed Hok.
  destruct (get_session_found _ _ _ _ Hget) as (_ & _ & Hget1).
  unfold upload. rewrite Hget. cbn [mbind py_bind bind].
  apply String.eqb_neq in Hname. rewrite Hname, Hallowed.
  cbn [negb strip_audio extract_last_frame run_ffmpeg].
  rewrite !Hok. cbn [Z.eqb negb].
  rewrite (add_uploaded_video_found _ _ _ _ _ _ _ Hget1).
  cbn [mbind py_bind bind].
  eexists. split; [reflexivity|].
  cbn [h_manager]. rewrite in_memory_save. cbn. apply lookup_insert_eq.
Qed.

(** C2. A session planned for three clips has received no upload.  An
    upload for step 3 is accepted: the video and its frame are appended and
    the step counter advances to 2.  The page of step 3 itself is refused
    for the same session, because step 2 has not been completed. *)
Theorem upload_accepts_skipped_step :
  exists h,
    upload quiet_world "u1" 3 (Some "clip.mp4") (Demo.created 3) = Ret h
    /\ h_flashes h = []
    /\ _in_memory_sessions (h_manager h) !! "u1"
       = Some (mkSessionData "u1" "a cat exploring a garden" "start.jpg"
                 ["p1"; "p2"; "p3"] 2 ["uploads/u1/step_3_silent.mp4"]
                 ["uploads/u1/step_3_frame.jpg"] 3 "sk-demo")
    /\ _in_memory_sessions (Demo.created 3) !! "u1"
       = Some (mkSessionData "u1" "a cat exploring a garden" "start.jpg"
                 ["p1"; "p2"; "p3"] 1 [] [] 3 "sk-demo")
    /\ app.step quiet_world "u1" 3 (Demo.created 3)
       = Ret (mkHandled (Redirect (ep_plan "u1"))
                [Flash "Previous step not completed" "error"]
                (Demo.created 3) []).
Proof. eexists. repeat split. Qed.

(** * Further properties of the code *)

(** ** The session store across calls and restarts *)

Section StoreMore.

Implicit Types (s : SessionData) (self : SessionManager) (sid : string).

Lemma from_dict_to_dict_forget s :
  from_dict (to_dict s) = Ret (forget_credential s).
Proof. apply from_dict_to_dict. Qed.

(** A record saved with success is what a fresh process finds under the
    record's identifier, credential apart. *)
Lemma saved_then_restart s self :
  get_session (session_id s) (restart (_save_session WriteOk s self))
  = Ret (Some (forget_credential s),
         cache (session_id s) (forget_credential s)
           (restart (_save_session WriteOk s self))).
Proof.
  unfold get_session, restart, _save_session, __init__.
  cbn [_in_memory_sessions session_files].
  rewrite lookup_empty, lookup_insert_eq.
  rewrite from_dict_to_dict_forget. reflexivity.
Qed.

End StoreMore.

(** X1. A session created while the file can be written survives a restart:
    a fresh process on the same sessions directory finds it under its
    identifier, at step 1 with no uploads, with every argument of
    [create_session] but the credential, which reads back empty. *)
Theorem create_session_survives_restart
    (uuid sd img : string) (pr : list string) (N : Z) (key : string)
    (self : SessionManager) :
  fst (create_session uuid WriteOk sd img pr N key self) = uuid
  /\ exists self',
       get_session uuid
         (restart (snd (create_session uuid WriteOk sd img pr N key self)))
       = Ret (Some (mkSessionData uuid sd img pr 1 [] [] N ""), self').
Proof.
  split; [reflexivity|]. eexists.
  apply (saved_then_restart (mkSessionData uuid sd img pr 1 [] [] N key)).
Qed.

(** X2. A session whose file could not be written is still found in the
    process that created it, credential included; when no older file bears
    the identifier, a fresh process does not find it. *)
Theorem create_session_cached_not_durable
    (uuid sd img : string) (pr : list string) (N : Z) (key : string)
    (disk : disk_write) (self : SessionManager) :
  disk <> WriteOk ->
  session_files self !! uuid = None ->
  get_session uuid (snd (create_session uuid disk sd img pr N key self))
  = Ret (Some (mkSessionData uuid sd img pr 1 [] [] N key),
         snd (create_session uuid disk sd img pr N key self))
  /\ get_session uuid
       (restart (snd (create_session uuid disk sd img pr N key self)))
     = Ret (None,
            restart (snd (create_session uuid disk sd img pr N key self))).
Proof.
  intros Hdisk Hfile. split.
  - apply get_session_cached. cbn. rewrite in_memory_save. cbn.
    apply lookup_insert_eq.
  - unfold get_session, restart. cbn.
    rewrite lookup_empty.
    destruct disk; [done| |]; cbn.
    + by rewrite Hfile.
    + by rewrite lookup_delete_eq.
Qed.

Lemma create_session_cached_not_durable_witness :
  get_session "u1"
    (snd (create_session "u1" WriteRefused "a cat" "start.jpg" ["p1"] 1
            "sk-demo" Demo.fresh))
  = Ret (Some (mkSessionData "u1" "a cat" "start.jpg" ["p1"] 1 [] [] 1
                 "sk-demo"),
         snd (create_session "u1" WriteRefused "a cat" "start.jpg" ["p1"] 1
                "sk-demo" Demo.fresh))
  /\ get_session "u1"
       (restart (snd (create_session "u1" WriteRefused "a cat" "start.jpg"
                        ["p1"] 1 "sk-demo" Demo.fresh)))
     = Ret (None,
            restart (snd (create_session "u1" WriteRefused "a cat"
                            "start.jpg" ["p1"] 1 "sk-demo" Demo.fresh))).
Proof.
  apply (create_session_cached_not_durable "u1" "a cat" "start.jpg" ["p1"] 1
           "sk-demo" WriteRefused Demo.fresh).
  - discriminate.
  - reflexivity.
Defined.

(** A lookup changes no file and no other identifier's cache entry. *)
Lemma get_session_frame
    (sid : string) (self self' : SessionManager)
    (found : option SessionData) :
  get_session sid self = Ret (found, self') ->
  session_files self' = session_files self
  /\ forall sid', sid' <> sid ->
       _in_memory_sessions self' !! sid' = _in_memory_sessions self !! sid'.
Proof.
  intros Hget. apply get_session_inv in Hget.
  inversion Hget; subst; split; try done.
  intros sid' Hne. cbn. by rewrite lookup_insert_ne.
Qed.

(** X3. [get_session] is a read with a cache: asking again gives the same
    answer and changes nothing more; the sessions directory is never
    touched, and no other identifier's cache entry is. *)
Theorem get_session_idempotent
    (sid : string) (self self' : SessionManager)
    (found : option SessionData) :
  get_session sid self = Ret (found, self') ->
  get_session sid self' = Ret (found, self')
  /\ session_files self' = session_files self
  /\ forall sid', sid' <> sid ->
       _in_memory_sessions self' !! sid' = _in_memory_sessions self !! sid'.
Proof.
  intros Hget. destruct found as [s|].
  - destruct (get_session_found _ _ _ _ Hget) as (_ & Hfiles & Hagain).
    split; [exact Hagain|]. split; [exact Hfiles|].
    intros sid' Hne. apply get_session_inv in Hget.
    inversion Hget; subst; [done|]. cbn. by rewrite lookup_insert_ne.
  - pose proof (get_session_not_found _ _ _ Hget) as ->. by repeat split.
Qed.

Lemma get_session_idempotent_witness :
  get_session "u1" (restart (Demo.created 3))
  = Ret (Some (mkSessionData "u1" "a cat exploring a garden" "start.jpg"
                 ["p1"; "p2"; "p3"] 1 [] [] 3 ""),
         cache "u1" (mkSessionData "u1" "a cat exploring a garden" "start.jpg"
                       ["p1"; "p2"; "p3"] 1 [] [] 3 "")
           (restart (Demo.created 3)))
  /\ get_session "u1"
       (cache "u1" (mkSessionData "u1" "a cat exploring a garden" "start.jpg"
                      ["p1"; "p2"; "p3"] 1 [] [] 3 "")
          (restart (Demo.created 3)))
     = Ret (Some (mkSessionData "u1" "a cat exploring a garden" "start.jpg"
                    ["p1"; "p2"; "p3"] 1 [] [] 3 ""),
            cache "u1" (mkSessionData "u1" "a cat exploring a garden"
                          "start.jpg" ["p1"; "p2"; "p3"] 1 [] [] 3 "")
              (restart (Demo.created 3))).
Proof.
  split; [reflexivity|].
  apply (get_session_idempotent "u1" (restart (Demo.created 3))).
  reflexivity.
Defined.

(** X4. An upload recorded while the file can be written survives a
    restart: for a session stored under its own identifier, a fresh process
    finds the record with the video and frame appended, credential apart. *)
Theorem upload_survives_restart
    (sid video_path frame_path : string) (self self1 : SessionManager)
    (s : SessionData) :
  get_session sid self = Ret (Some s, self1) ->
  session_id s = sid ->
  exists self' self'',
    add_uploaded_video sid video_path frame_path WriteOk self
    = Ret (true, self')
    /\ get_session sid (restart self')
       = Ret (Some (forget_credential (append_upload video_path frame_path s)),
              self'').
Proof.
  intros Hget Hid. eexists _, _. split.
  - by apply add_uploaded_video_found.
  - destruct (append_upload_fields video_path frame_path s)
      as (_ & _ & _ & _ & Hsid & _).
    rewrite <- Hid at 1. rewrite <- Hsid at 1.
    apply (saved_then_restart (append_upload video_path frame_path s)).
Qed.

Lemma upload_survives_restart_witness :
  exists self' self'',
    add_uploaded_video "u1" "step_1_silent.mp4" "step_1_frame.jpg" WriteOk
      (Demo.created 3)
    = Ret (true, self')
    /\ get_session "u1" (restart self')
       = Ret (Some (mkSessionData "u1" "a cat exploring a garden" "start.jpg"
                      ["p1"; "p2"; "p3"] 2 ["step_1_silent.mp4"]
                      ["step_1_frame.jpg"] 3 ""),
              self'').
Proof.
  apply (upload_survives_restart "u1" "step_1_silent.mp4" "step_1_frame.jpg"
           (Demo.created 3) (Demo.created 3)
           (mkSessionData "u1" "a cat exploring a garden" "start.jpg"
              ["p1"; "p2"; "p3"] 1 [] [] 3 "sk-demo")).
  - reflexivity.
  - reflexivity.
Defined.

(** X5. [add_uploaded_video] touches one session only: the cache entries of
    all other identifiers are as before, and the only file that can change
    is the one named after the found record's [session_id]; for an unknown
    identifier nothing changes at all. *)
Theorem add_uploaded_video_frame
    (sid video_path frame_path : string) (disk : disk_write)
    (self self1 self' : SessionManager) (found : option SessionData)
    (r : bool) :
  get_session sid self = Ret (found, self1) ->
  add_uploaded_video sid video_path frame_path disk self = Ret (r, self') ->
  (forall sid', sid' <> sid ->
     _in_memory_sessions self' !! sid' = _in_memory_sessions self !! sid')
  /\ match found with
     | Some s =>
         r = true
         /\ forall k, k <> session_id s ->
              session_files self' !! k = session_files self !! k
     | None => r = false /\ self' = self
     end.
Proof.
  intros Hget Hadd.
  destruct (get_session_frame _ _ _ _ Hget) as (Hfiles & Hcache).
  unfold add_uploaded_video in Hadd. rewrite Hget in Hadd. cbn in Hadd.
  destruct found as [s|]; injection Hadd as <- <-.
  - split.
    + intros sid' Hne. rewrite in_memory_save. cbn.
      rewrite lookup_insert_ne by done. by apply Hcache.
    + split; [done|]. intros k Hk.
      destruct (append_upload_fields video_path frame_path s)
        as (_ & _ & _ & _ & Hsid & _).
      destruct disk; cbn; rewrite ?Hsid, ?Hfiles.
      * by rewrite lookup_insert_ne.
      * done.
      * by rewrite lookup_delete_ne.
  - pose proof (get_session_not_found _ _ _ Hget) as ->. by split.
Qed.

Lemma add_uploaded_video_frame_witness :
  (forall sid', sid' <> "u1" ->
     _in_memory_sessions (Demo.uploaded_once 3) !! sid'
     = _in_memory_sessions (Demo.created 3) !! sid')
  /\ true = true
  /\ forall k, k <> "u1" ->
       session_files (Demo.uploaded_once 3) !! k
       = session_files (Demo.created 3) !! k.
Proof.
  apply (add_uploaded_video_frame "u1" "step_1_silent.mp4" "step_1_frame.jpg"
           WriteOk (Demo.created 3) (Demo.created 3) (Demo.uploaded_once 3)
           (Some (mkSessionData "u1" "a cat exploring a garden" "start.jpg"
                    ["p1"; "p2"; "p3"] 1 [] [] 3 "sk-demo")) true).
  - reflexivity.
  - reflexivity.
Defined.



Lemma create_then_uploads_witness :
  exists self' s',
    upload_all "u1" [("a.mp4", "a.jpg"); ("b.mp4", "b.jpg"); ("c.mp4", "c.jpg")]
      WriteOk
      (snd (create_session "u1" WriteOk "a cat" "start.jpg" ["p1"; "p2"] 2
              "sk-demo" Demo.fresh)) = Ret self'
    /\ _in_memory_sessions self' !! "u1" = Some s'
    /\ uploaded_videos s' = ["a.mp4"; "b.mp4"; "c.mp4"]
    /\ last_frames s' = ["a.jpg"; "b.jpg"; "c.jpg"]
    /\ num_clips s' = 2
    /\ current_step s' = 2.
Proof.
  apply (create_then_uploads "u1" WriteOk "a cat" "start.jpg" ["p1"; "p2"] 2
           "sk-demo"
           [("a.mp4", "a.jpg"); ("b.mp4", "b.jpg"); ("c.mp4", "c.jpg")]
           Demo.fresh).
  lia.
Defined.


Section Files.

Implicit Types (d : dict) (k : string).

Lemma dict_mem_In k d : dict_mem k d = true <-> exists v, In (k, v) d.
Proof.
  unfold dict_mem, dict_lookup. split.
  - destruct (List.find _ d) as [[k' v]|] eqn:Hfind; cbn; [|discriminate].
    intros _. apply List.find_some in Hfind as [Hin Heq].
    apply String.eqb_eq in Heq. cbn in Heq. subst. by exists v.
  - intros [v Hin].
    destruct (List.find _ d) as [x|] eqn:Hfind; [done|].
    pose proof (List.find_none _ _ Hfind _ Hin) as Hno. cbn in Hno.
    by rewrite String.eqb_refl in Hno.
Qed.

Lemma In_dict_set k v d x : In x d -> fst x <> k -> In x (dict_set k v d).
Proof.
  induction d as [|[k' v'] d IH]; [done|]. cbn [dict_set].
  intros [<-|Hin] Hne.
  - destruct (String.eqb_spec k' k); [done|]. by left.
  - destruct (String.eqb_spec k' k); right; [done|by apply IH].
Qed.

Lemma In_dict_set_inv k v d x :
  In x (dict_set k v d) -> In x d \/ x = (k, v).
Proof.
  induction d as [|[k' v'] d IH]; cbn [dict_set].
  - intros [<-|[]]. by right.
  - destruct (String.eqb_spec k' k).
    + intros [<-|Hin]; [by right|left; by right].
    + intros [<-|Hin]; [left; by left|].
      destruct (IH Hin); [left; by right|by right].
Qed.

(** The constructor refuses a dictionary with a key that is no field, and
    one that lacks a field. *)
Lemma cls_unknown_key k v d :
  In (k, v) d -> field_of_name k = None -> cls d = Raise TypeError.
Proof.
  intros Hin Hk. unfold cls.
  destruct (forallb _ d) eqn:Hall; [|done].
  rewrite forallb_forall in Hall. specialize (Hall _ Hin). cbn [fst] in Hall.
  rewrite Hk in Hall. by apply bool_decide_eq_true in Hall as [? ?].
Qed.

Lemma cls_missing_field f d :
  dict_mem (field_name f) d = false -> cls d = Raise TypeError.
Proof.
  intros Hf. unfold cls.
  destruct (forallb (fun f => dict_mem (field_name f) d) fields) eqn:Hall.
  - rewrite forallb_forall in Hall.
    assert (In f fields) as Hin by (destruct f; cbn; tauto).
    specialize (Hall _ Hin). congruence.
  - by rewrite andb_false_r.
Qed.

Lemma from_dict_bad_keys d :
  (exists k, dict_mem k d = true /\ field_of_name k = None)
  \/ (exists f, f <> F_openai_api_key /\ dict_mem (field_name f) d = false) ->
  from_dict d = Raise TypeError.
Proof.
  unfold from_dict. intros [(k & Hk & Hno)|(f & Hf & Hmiss)].
  - apply dict_mem_In in Hk as [v Hin].
    destruct (negb (dict_mem "openai_api_key" d)).
    + apply (cls_unknown_key k v); [|done].
      apply In_dict_set; [done|]. cbn. intros ->. done.
    + by apply (cls_unknown_key k v).
  - destruct (negb (dict_mem "openai_api_key" d)); [|by apply (cls_missing_field f)].
    apply (cls_missing_field f).
    destruct (dict_mem (field_name f) (dict_set _ _ d)) eqn:Hset; [|done].
    apply dict_mem_In in Hset as [v Hin].
    apply In_dict_set_inv in Hin as [Hin|[= Hname _]].
    + assert (dict_mem (field_name f) d = true) as Hmem
        by (apply dict_mem_In; eauto).
      congruence.
    + exfalso. apply Hf. by apply field_name_inj.
Qed.

End Files.

(** X9. A session file that lacks a field other than the credential, or
    carries a key that is no field, cannot be read: [from_dict] raises
    [TypeError], and [get_session] answers that there is no such session,
    leaving the store as it is. *)
Theorem get_session_unreadable_file
    (sid : string) (self : SessionManager) (data : dict) :
  _in_memory_sessions self !! sid = None ->
  session_files self !! sid = Some data ->
  (exists k, dict_mem k data = true /\ field_of_name k = None)
  \/ (exists f, f <> F_openai_api_key
                /\ dict_mem (field_name f) data = false) ->
  from_dict data = Raise TypeError
  /\ get_session sid self = Ret (None, self).
Proof.
  intros Hmem Hfile Hbad.
  pose proof (from_dict_bad_keys data Hbad) as Hfrom.
  split; [exact Hfrom|].
  unfold get_session. rewrite Hmem, Hfile, Hfrom. reflexivity.
Qed.

Lemma get_session_unreadable_file_witness :
  from_dict [("session_id", VStr "u9"); ("scene_description", VStr "a cat")]
  = Raise TypeError
  /\ get_session "u9"
       (__init__ {[ "u9" := [("session_id", VStr "u9");
                             ("scene_description", VStr "a cat")] ]})
     = Ret (None,
            __init__ {[ "u9" := [("session_id", VStr "u9");
                                 ("scene_description", VStr "a cat")] ]}).
Proof.
  apply (get_session_unreadable_file "u9"
           (__init__ {[ "u9" := [("session_id", VStr "u9");
                                 ("scene_description", VStr "a cat")] ]})).
  - reflexivity.
  - reflexivity.
  - right. exists F_num_clips. split; [discriminate|reflexivity].
Defined.

(** X10. [from_dict] keeps a credential the dictionary carries: it undoes
    [asdict] exactly, so the empty credential is only supplied when the key
    is absent. *)
Theorem from_dict_asdict (s : SessionData) : from_dict (asdict s) = Ret s.
Proof.
  destruct s as [sid sd img pr cs uv lf nc key].
  unfold from_dict, cls. cbn.
  rewrite !mapM_as_str. reflexivity.
Qed.

(** X11. In every state the store reaches, a known session with clip count
    [N >= 1] always has a current image: [get_current_image_path] never
    answers [None] for it.  Before the first upload it is the starting
    image; while fewer than [N] videos are uploaded it is the frame of the
    latest upload. *)
Theorem get_current_image_path_defined
    (sid : string) (self self1 : SessionManager) (s : SessionData) :
  reachable self ->
  get_session sid self = Ret (Some s, self1) ->
  1 <= num_clips s ->
  exists image_path,
    get_current_image_path sid self = Ret (Some image_path, self1)
    /\ (uploaded_videos s = [] -> image_path = starting_image_path s)
    /\ (0 < Z.of_nat (length (uploaded_videos s)) < num_clips s ->
        last (last_frames s) = Some image_path).
Proof.
  intros Hreach Hget HN.
  apply reachable_store_inv in Hreach.
  destruct (store_inv_get _ _ _ _ Hreach Hget) as [_ Hs].
  destruct (Hs s eq_refl) as [Hlen Hstep]. specialize (Hstep HN).
  unfold get_current_image_path. rewrite Hget. cbn [mbind py_bind bind].
  destruct (Z.eqb_spec (current_step s) 1) as [Hone|Hnot].
  - eexists. split; [reflexivity|]. split; [done|]. lia.
  - assert (1 < current_step s) as Hgt by lia.
    assert (current_step s - 1 <= Z.of_nat (length (last_frames s))) as Hle
      by lia.
    rewrite (proj2 (Z.ltb_lt _ _) Hgt), (proj2 (Z.leb_le _ _) Hle).
    cbn [andb].
    destruct (lookup_lt_is_Some_2 (last_frames s)
                (Z.to_nat (current_step s - 2))) as [p Hp]; [lia|].
    exists p. rewrite Hp. split; [reflexivity|]. split.
    + intros Hnil. rewrite Hnil in Hstep. cbn in Hstep. lia.
    + intros Hmid. rewrite last_lookup, <- Hp. f_equal. lia.
Qed.

Lemma get_current_image_path_defined_witness :
  exists image_path,
    get_current_image_path "u1" (Demo.uploaded_once 3)
    = Ret (Some image_path, Demo.uploaded_once 3)
    /\ (["step_1_silent.mp4"] = [] -> image_path = "start.jpg")
    /\ (0 < 1 < 3 -> last ["step_1_frame.jpg"] = Some image_path).
Proof.
  apply (get_current_image_path_defined "u1" (Demo.uploaded_once 3)
           (Demo.uploaded_once 3)
           (mkSessionData "u1" "a cat exploring a garden" "start.jpg"
              ["p1"; "p2"; "p3"] 2 ["step_1_silent.mp4"]
              ["step_1_frame.jpg"] 3 "sk-demo")).
  - exists [Demo.create_op 3; Demo.upload_op]. split; reflexivity.
  - reflexivity.
  - cbn. lia.
Defined.

(** ** The handlers *)

Section FileNames.

Implicit Types (s stem ext : string).

Lemma after_last_dot_no_dot s :
  has_char "." s = false -> after_last_dot s = None.
Proof.
  induction s as [|c s IH]; [done|]. cbn [has_char after_last_dot].
  intros [Hc Hs]%orb_false_iff. by rewrite (IH Hs), Hc.
Qed.

Lemma after_last_dot_app stem ext :
  has_char "." ext = false ->
  after_last_dot (stem +:+ "." +:+ ext) = Some ext.
Proof.
  intros Hext. induction stem as [|c stem IH].
  - change (after_last_dot (String "." ext) = Some ext).
    cbn [after_last_dot]. by rewrite (after_last_dot_no_dot _ Hext).
  - change (after_last_dot (String c (stem +:+ "." +:+ ext)) = Some ext).
    cbn [after_last_dot]. by rewrite IH.
Qed.

Lemma has_char_app c stem s :
  has_char c (stem +:+ s) = has_char c stem || has_char c s.
Proof.
  induction stem as [|c' stem IH]; [done|].
  change (has_char c (String c' (stem +:+ s))
          = has_char c (String c' stem) || has_char c s).
  cbn [has_char]. by rewrite IH, orb_assoc.
Qed.

End FileNames.

(** X12. Only the text after the last dot decides whether a file name is
    allowed, compared without regard to case; a name without a dot is never
    allowed, not even when it spells an allowed extension. *)
Theorem allowed_file_extension
    (stem ext : string) (extensions : list string) :
  has_char "." ext = false ->
  allowed_file (stem +:+ "." +:+ ext) extensions
  = bool_decide (lower ext ∈ extensions)
  /\ allowed_file ext extensions = false.
Proof.
  intros Hext. unfold allowed_file. split.
  - rewrite (after_last_dot_app _ _ Hext), has_char_app.
    change (has_char "." ("." +:+ ext)) with true.
    by rewrite orb_true_r.
  - by rewrite Hext.
Qed.

Lemma allowed_file_extension_witness :
  allowed_file ("holiday.final" +:+ "." +:+ "MP4") ALLOWED_VIDEO_EXTENSIONS
  = bool_decide (lower "MP4" ∈ ALLOWED_VIDEO_EXTENSIONS)
  /\ allowed_file "MP4" ALLOWED_VIDEO_EXTENSIONS = false.
Proof.
  apply (allowed_file_extension "holiday.final" "MP4"
           ALLOWED_VIDEO_EXTENSIONS).
  reflexivity.
Defined.

(** X13. [upload] records an upload only after both runs of the tool
    succeeded.  Either it flashes an error, has run nothing, the audio strip
    alone, or the strip and the frame extraction, and leaves the session
    store as the lookup left it; or it flashes nothing, has run the strip
    and then the extraction on the stripped file, both with exit status 0,
    has recorded the stripped video with the extracted frame, and redirects
    to the next step, or to the combine page from the last prompt on. *)
Theorem upload_records_only_after_tools
    (w : world) (sid : string) (step_num : Z) (video : option string)
    (self self1 : SessionManager) (found : option SessionData)
    (h : handled) :
  get_session sid self = Ret (found, self1) ->
  upload w sid step_num video self = Ret h ->
  (h_manager h = self1
   /\ h_flashes h <> []
   /\ (h_calls h = [] \/ h_calls h = [strip_call sid step_num]
       \/ h_calls h = [strip_call sid step_num; extract_call sid step_num]))
  \/ exists s,
       found = Some s
       /\ h_flashes h = []
       /\ h_calls h = [strip_call sid step_num; extract_call sid step_num]
       /\ returncode w (strip_call sid step_num) = 0
       /\ returncode w (extract_call sid step_num) = 0
       /\ h_manager h
          = _save_session (sessions_disk w) (after_upload sid step_num s)
              (cache sid (after_upload sid step_num s) self1)
       /\ h_response h
          = Redirect (if step_num <? Z.of_nat (length (prompts s))
                      then ep_step sid (step_num + 1)
                      else ep_combine sid).
Proof.
  intros Hget. unfold upload. rewrite Hget. cbn [mbind py_bind bind].
  destruct found as [s|]; [|intros [= <-]; left; by repeat split; auto].
  destruct (get_session_found _ _ _ _ Hget) as (_ & _ & Hget1).
  destruct video as [filename|];
    [|intros [= <-]; left; by repeat split; auto].
  destruct (String.eqb filename "");
    [intros [= <-]; left; by repeat split; auto|].
  destruct (negb (allowed_file filename ALLOWED_VIDEO_EXTENSIONS));
    [intros [= <-]; left; by repeat split; auto|].
  cbn [strip_audio extract_last_frame run_ffmpeg app].
  fold (strip_call sid step_num). fold (extract_call sid step_num).
  destruct (Z.eqb_spec (returncode w (strip_call sid step_num)) 0)
    as [Hstrip|Hstrip]; cbn [negb];
    [|intros [= <-]; left; by repeat split; auto].
  destruct (Z.eqb_spec (returncode w (extract_call sid step_num)) 0)
    as [Hextract|Hextract]; cbn [negb];
    [|intros [= <-]; left; by repeat split; auto].
  rewrite (add_uploaded_video_found _ _ _ _ _ _ _ Hget1).
  cbn [mbind py_bind bind]. intros [= <-]. right. exists s.
  by repeat split.
Qed.

Lemma upload_records_only_after_tools_witness :
  exists h,
    upload quiet_world "u1" 1 (Some "clip.mp4") (Demo.created 3) = Ret h
    /\ h_flashes h = []
    /\ h_calls h = [strip_call "u1" 1; extract_call "u1" 1]
    /\ h_response h = Redirect (ep_step "u1" 2).
Proof.
  destruct (upload quiet_world "u1" 1 (Some "clip.mp4") (Demo.created 3))
    as [h| |] eqn:Hup; [|discriminate Hup..].
  exists h. split; [reflexivity|].
  destruct (upload_records_only_after_tools quiet_world "u1" 1
              (Some "clip.mp4") (Demo.created 3) (Demo.created 3)
              (Some (mkSessionData "u1" "a cat exploring a garden"
                       "start.jpg" ["p1"; "p2"; "p3"] 1 [] [] 3 "sk-demo"))
              h eq_refl Hup)
    as [(_ & Hflash & _)|(s & [= <-] & Hflash & Hcalls & _ & _ & _ & Hresp)].
  - exfalso. apply Hflash. by injection Hup as <-.
  - repeat split; assumption.
Defined.

(** X14. The step page is only rendered for an eligible step: the step
    number lies between 1 and the number of prompts, the prompt shown is the
    one of that step, and the image shown exists and is the starting image
    for step 1, the frame of step [K - 1] otherwise, which therefore has
    been uploaded.  The handler runs no tool and leaves the store as the
    lookup left it. *)
Theorem step_renders_eligible_only
    (w : world) (sid : string) (step_num : Z)
    (self self1 : SessionManager) (found : option SessionData)
    (h : handled) :
  get_session sid self = Ret (found, self1) ->
  app.step w sid step_num self = Ret h ->
  h_manager h = self1
  /\ h_calls h = []
  /\ forall K prompt image_path complete,
       h_response h = RenderStep K prompt image_path complete ->
       exists s,
         found = Some s
         /\ K = step_num
         /\ 1 <= step_num <= Z.of_nat (length (prompts s))
         /\ prompts s !! Z.to_nat (step_num - 1) = Some prompt
         /\ path_exists w image_path = true
         /\ (step_num = 1 -> image_path = starting_image_path s)
         /\ (1 < step_num ->
             last_frames s !! Z.to_nat (step_num - 2) = Some image_path)
         /\ complete
            = (step_num <=? Z.of_nat (length (uploaded_videos s))).
Proof.
  intros Hget. unfold app.step. rewrite Hget. cbn [mbind py_bind bind].
  destruct found as [s|]; [|intros [= <-]; by repeat split].
  destruct (Z.ltb_spec step_num 1) as [Hlow|Hlow]; cbn [orb];
    [intros [= <-]; by repeat split|].
  destruct (Z.ltb_spec (Z.of_nat (length (prompts s))) step_num)
    as [Hhigh|Hhigh]; [intros [= <-]; by repeat split|].
  match goal with
  | |- context [match ?img with Some _ => _ | None => _ end] =>
      destruct img as [image|] eqn:Himg
  end; [|intros [= <-]; by repeat split].
  destruct (path_exists w image) eqn:Hexists; cbn [negb];
    [|intros [= <-]; by repeat split].
  intros [= <-]. split; [done|]. split; [done|].
  intros K prompt image_path complete [= <- <- <- <-].
  exists s. split; [done|]. split; [done|]. split; [lia|].
  destruct (lookup_lt_is_Some_2 (prompts s) (Z.to_nat (step_num - 1)))
    as [pr Hpr]; [lia|].
  rewrite Hpr. cbn. split; [done|]. split; [done|].
  destruct (Z.eqb_spec step_num 1) as [->|Hne].
  - injection Himg as <-. split; [done|]. split; [lia|done].
  - split; [done|]. split; [|done]. intros _.
    destruct (step_num - 1 <=? Z.of_nat (length (last_frames s)));
      [done|discriminate].
Qed.

Lemma step_renders_eligible_only_witness :
  exists h,
    app.step quiet_world "u1" 2 (Demo.uploaded_once 3) = Ret h
    /\ h_manager h = Demo.uploaded_once 3
    /\ h_calls h = []
    /\ h_response h = RenderStep 2 "p2" "step_1_frame.jpg" false.
Proof.
  destruct (app.step quiet_world "u1" 2 (Demo.uploaded_once 3))
    as [h| |] eqn:Hstep; [|discriminate Hstep..].
  exists h. split; [reflexivity|].
  destruct (step_renders_eligible_only quiet_world "u1" 2
              (Demo.uploaded_once 3) (Demo.uploaded_once 3)
              (Some (mkSessionData "u1" "a cat exploring a garden"
                       "start.jpg" ["p1"; "p2"; "p3"] 2 ["step_1_silent.mp4"]
                       ["step_1_frame.jpg"] 3 "sk-demo"))
              h eq_refl Hstep) as (Hm & Hc & _).
  split; [exact Hm|]. split; [exact Hc|]. by injection Hstep as <-.
Defined.

(** X15. [generate_final] only reads the session store, and it runs the
    join tool only for a known, complete session all of whose uploaded
    videos exist. *)
Theorem generate_final_runs_tool_only_when_ready
    (w : world) (sid : string) (self self1 : SessionManager)
    (found : option SessionData) (h : handled) :
  get_session sid self = Ret (found, self1) ->
  generate_final w sid self = Ret h ->
  h_manager h = self1
  /\ (h_calls h <> [] ->
      exists s,
        found = Some s
        /\ num_clips s <= Z.of_nat (length (uploaded_videos s))
        /\ Forall (fun video_path => path_exists w video_path = true)
                  (uploaded_videos s)).
Proof.
  intros Hget. unfold generate_final. rewrite Hget. cbn [mbind py_bind bind].
  destruct found as [s|]; [|intros [= <-]; by split].
  destruct (get_session_found _ _ _ _ Hget) as (_ & _ & Hget1).
  unfold is_complete. rewrite Hget1. cbn [mbind py_bind bind].
  destruct (Z.leb_spec (num_clips s) (Z.of_nat (length (uploaded_videos s))))
    as [Hfull|Hfew]; cbn [negb]; [|intros [= <-]; by split].
  destruct (List.find _ (uploaded_videos s)) as [missing|] eqn:Hfind;
    [intros [= <-]; by split|].
  assert (Forall (fun video_path => path_exists w video_path = true)
                 (uploaded_videos s)) as Hall.
  { apply Forall_forall. intros p Hp%list_elem_of_In.
    pose proof (List.find_none _ _ Hfind _ Hp) as Hno.
    by apply negb_false_iff in Hno. }
  cbn [concat_videos].
  destruct (negb (returncode w _ =? 0)); intros [= <-];
    (split; [done|]); intros _; by exists s.
Qed.

Lemma generate_final_runs_tool_only_when_ready_witness :
  exists h,
    generate_final quiet_world "u1" (Demo.uploaded_once 1) = Ret h
    /\ h_manager h = Demo.uploaded_once 1
    /\ length (h_calls h) = 1%nat.
Proof.
  destruct (generate_final quiet_world "u1" (Demo.uploaded_once 1))
    as [h| |] eqn:Hfinal; [|discriminate Hfinal..].
  exists h. split; [reflexivity|].
  destruct (generate_final_runs_tool_only_when_ready quiet_world "u1"
              (Demo.uploaded_once 1) (Demo.uploaded_once 1)
              (Some (mkSessionData "u1" "a cat exploring a garden"
                       "start.jpg" ["p1"; "p2"; "p3"] 1 ["step_1_silent.mp4"]
                       ["step_1_frame.jpg"] 1 "sk-demo"))
              h eq_refl Hfinal) as [Hm _].
  split; [exact Hm|]. by injection Hfinal as <-.
Defined.






(** X18. [concat_videos] passes the tool file names only: the manifest and
    the command line depend on the input paths through their last
    components alone, so inputs with the same file names in other
    directories give the very same run. *)
Theorem concat_videos_names_only
    (rc : tool_call -> Z) (videos1 videos2 : list string)
    (output_video : string) :
  basename <$> videos1 = basename <$> videos2 ->
  concat_videos rc videos1 output_video
  = concat_videos rc videos2 output_video.
Proof.
  intros Hnames. unfold concat_videos.
  assert (foldr (fun vf rest => manifest_line vf +:+ rest) "" videos1
          = foldr (fun vf rest => manifest_line vf +:+ rest) "" videos2)
    as ->; [|reflexivity].
  revert videos2 Hnames.
  induction videos1 as [|v1 l1 IH]; intros [|v2 l2]; try done.
  rewrite !fmap_cons. intros [= Hv Hl]. cbn [foldr].
  unfold manifest_line at 1 3. by rewrite Hv, (IH l2 Hl).
Qed.

Lemma concat_videos_names_only_witness :
  concat_videos (fun _ => 0) ["uploads/u1/step_1_silent.mp4"]
    "/srv/app/uploads/u1/final_output.mp4"
  = concat_videos (fun _ => 0) ["/elsewhere/step_1_silent.mp4"]
      "/srv/app/uploads/u1/final_output.mp4".
Proof.
  apply (concat_videos_names_only (fun _ => 0)
           ["uploads/u1/step_1_silent.mp4"] ["/elsewhere/step_1_silent.mp4"]).
  reflexivity.
Defined.

(** X19. The image route serves the image the step page shows: whenever
    [step] renders step [K] with an image, [get_image] answers for [K] with
    that very file. *)
Theorem get_image_serves_step_image
    (w : world) (sid : string) (step_num K : Z)
    (self self1 : SessionManager) (found : option SessionData)
    (h : handled) (prompt image_path : string) (complete : bool) :
  get_session sid self = Ret (found, self1) ->
  app.step w sid step_num self = Ret h ->
  h_response h = RenderStep K prompt image_path complete ->
  get_image w sid step_num self = Ret (SendFile image_path, self1).
Proof.
  intros Hget Hstep Hrender. revert Hstep.
  unfold app.step, get_image. rewrite Hget. cbn [mbind py_bind bind].
  destruct found as [s|]; [|intros [= <-]; discriminate Hrender].
  destruct (Z.ltb_spec step_num 1) as [Hlow|Hlow]; cbn [orb];
    [intros [= <-]; discriminate Hrender|].
  destruct (Z.ltb_spec (Z.of_nat (length (prompts s))) step_num)
    as [Hhigh|Hhigh]; [intros [= <-]; discriminate Hrender|].
  destruct (Z.eqb_spec step_num 1) as [Hone|Hne].
  - destruct (path_exists w (starting_image_path s)) eqn:Hexists;
      cbn [negb mbind py_bind bind];
      intros [= <-]; [|discriminate Hrender].
    injection Hrender as _ _ <- _. by rewrite Hexists.
  - destruct (step_num - 1 <=? Z.of_nat (length (last_frames s))) eqn:Hle;
      [|intros [= <-]; discriminate Hrender].
    unfold py_item.
    assert ((0 <=? step_num - 2) = true) as -> by (apply Z.leb_le; lia).
    destruct (last_frames s !! Z.to_nat (step_num - 2)) as [frame|];
      [|intros [= <-]; discriminate Hrender].
    cbn [of_option mbind py_bind bind].
    destruct (path_exists w frame) eqn:Hexists; cbn [negb];
      intros [= <-]; [|discriminate Hrender].
    injection Hrender as _ _ <- _. reflexivity.
Qed.

Lemma get_image_serves_step_image_witness :
  get_image quiet_world "u1" 2 (Demo.uploaded_once 3)
  = Ret (SendFile "step_1_frame.jpg", Demo.uploaded_once 3).
Proof.
  apply (get_image_serves_step_image quiet_world "u1" 2 2
           (Demo.uploaded_once 3) (Demo.uploaded_once 3)
           (Some (mkSessionData "u1" "a cat exploring a garden" "start.jpg"
                    ["p1"; "p2"; "p3"] 2 ["step_1_silent.mp4"]
                    ["step_1_frame.jpg"] 3 "sk-demo"))
           (mkHandled (RenderStep 2 "p2" "step_1_frame.jpg" false) []
              (Demo.uploaded_once 3) [])
           "p2" "step_1_frame.jpg" false).
  - reflexivity.
  - reflexivity.
  - reflexivity.
Defined.

(** X20. The image route does not check the step number from below.  For a
    step number of 0 or less it indexes the frames from the end: with too
    few frames the handler raises [IndexError] instead of answering 404, and
    with enough frames it serves a frame counted from the end of the list,
    provided the file exists. *)
Theorem get_image_below_range
    (w : world) (sid : string) (step_num : Z)
    (self self1 : SessionManager) (s : SessionData) :
  get_session sid self = Ret (Some s, self1) ->
  step_num <= 0 ->
  (Z.of_nat (length (last_frames s)) < 2 - step_num ->
   get_image w sid step_num self = Raise IndexError)
  /\ (2 - step_num <= Z.of_nat (length (last_frames s)) ->
      exists frame,
        last_frames s
          !! Z.to_nat (Z.of_nat (length (last_frames s)) + step_num - 2)
        = Some frame
        /\ (path_exists w frame = true ->
            get_image w sid step_num self = Ret (SendFile frame, self1))).
Proof.
  intros Hget Hlow.
  assert ((step_num =? 1) = false) as Hne by (apply Z.eqb_neq; lia).
  assert ((step_num - 1 <=? Z.of_nat (length (last_frames s))) = true) as Hle
    by (apply Z.leb_le; lia).
  assert ((0 <=? step_num - 2) = false) as Hneg by (apply Z.leb_gt; lia).
  unfold get_image. rewrite Hget. cbn [mbind py_bind bind].
  rewrite Hne, Hle. unfold py_item. rewrite Hneg. split.
  - intros Hfew.
    assert ((0 <=? Z.of_nat (length (last_frames s)) + (step_num - 2)) = false)
      as -> by (apply Z.leb_gt; lia).
    reflexivity.
  - intros Hmany.
    assert ((0 <=? Z.of_nat (length (last_frames s)) + (step_num - 2)) = true)
      as -> by (apply Z.leb_le; lia).
    destruct (lookup_lt_is_Some_2 (last_frames s)
                (Z.to_nat (Z.of_nat (length (last_frames s)) + step_num - 2)))
      as [frame Hframe]; [lia|].
    exists frame. split; [exact Hframe|]. intros Hexists.
    replace (Z.of_nat (length (last_frames s)) + (step_num - 2))
      with (Z.of_nat (length (last_frames s)) + step_num - 2) by lia.
    rewrite Hframe. cbn [of_option mbind py_bind bind]. by rewrite Hexists.
Qed.

Lemma get_image_below_range_witness :
  get_image quiet_world "u1" 0 (Demo.uploaded_once 3) = Raise IndexError.
Proof.
  apply (get_image_below_range quiet_world "u1" 0 (Demo.uploaded_once 3)
           (Demo.uploaded_once 3)
           (mkSessionData "u1" "a cat exploring a garden" "start.jpg"
              ["p1"; "p2"; "p3"] 2 ["step_1_silent.mp4"]
              ["step_1_frame.jpg"] 3 "sk-demo")).
  - reflexivity.
  - lia.
  - cbn. lia.
Defined.

(** ** Session creation *)

(** Without an API key or without a scene description, both after
    trimming, [create] refuses with a message: no session is made, the
    store is untouched, and the text-generation service plays no part in
    the answer. *)
Theorem create_requires_key_and_description
    (requests_post : string -> string -> string -> http_response)
    (json_loads : string -> option pyval)
    (cw : create_world) (form : create_form) (self : SessionManager) :
  strip (form_openai_api_key form) = ""
  \/ strip (form_scene_description form) = "" ->
  exists message,
    create requests_post json_loads cw form self
    = Ret (mkHandled (Redirect ep_index) [Flash message "error"] self []).
Proof.
  intros Hempty. unfold create.
  destruct (String.eqb_spec (strip (form_openai_api_key form)) "")
    as [_|Hkey]; [by eexists|].
  destruct (String.eqb_spec (strip (form_scene_description form)) "")
    as [_|Hdesc]; [by eexists|].
  by destruct Hempty.
Qed.

Lemma create_requires_key_and_description_witness :
  exists message,
    create DemoService.down DemoService.loads DemoCreate.everything_fine
      DemoCreate.without_key Demo.fresh
    = Ret (mkHandled (Redirect ep_index) [Flash message "error"] Demo.fresh []).
Proof.
  apply (create_requires_key_and_description DemoService.down
           DemoService.loads DemoCreate.everything_fine
           DemoCreate.without_key Demo.fresh).
  left. reflexivity.
Defined.

Lemma get_session_saved_cached
    (sid : string) (disk : disk_write) (s : SessionData)
    (self : SessionManager) :
  get_session sid (_save_session disk s (cache sid s self))
  = Ret (Some s, _save_session disk s (cache sid s self)).
Proof.
  apply get_session_cached. rewrite in_memory_save. cbn.
  apply lookup_insert_eq.
Qed.

(** X21. With a key, a description, a plan of strings, an image that is
    offered (an allowed, named file part, or an address when the request
    has no file part), stored without an exception and found afterwards,
    [create] redirects to the plan page without a message, and the session
    is known under the fresh identifier, at step 1 with no uploads, with the
    trimmed key and description, the plan as prompts, the clip count as it
    was given, unchecked, and
    [uploads/<id>/starting_image.jpg] as starting image. *)
Theorem create_makes_session
    (requests_post : string -> string -> string -> http_response)
    (json_loads : string -> option pyval)
    (cw : create_world) (form : create_form) (self : SessionManager)
    (plan : list string) :
  strip (form_openai_api_key form) <> "" ->
  strip (form_scene_description form) <> "" ->
  generate_clip_plan requests_post json_loads
    (strip (form_openai_api_key form)) (strip (form_scene_description form))
    (form_num_clips form) = Ret (VStr <$> plan) ->
  (exists filename,
     form_image_file form = Some filename /\ filename <> ""
     /\ allowed_file filename ALLOWED_IMAGE_EXTENSIONS = true)
  \/ (form_image_file form = None /\ strip (form_image_url form) <> "") ->
  image_failure cw = None ->
  image_exists cw
    (path_join (path_join UPLOAD_FOLDER (new_uuid cw)) "starting_image.jpg")
  = true ->
  exists h,
    create requests_post json_loads cw form self = Ret h
    /\ h_response h = Redirect (ep_plan (new_uuid cw))
    /\ h_flashes h = []
    /\ h_calls h = []
    /\ get_session (new_uuid cw) (h_manager h)
       = Ret (Some (created_record cw form
                      (path_join (path_join UPLOAD_FOLDER (new_uuid cw))
                                 "starting_image.jpg") plan),
              h_manager h).
Proof.
  intros Hkey Hdesc Hplan Himage Hio Hexists. unfold create.
  apply String.eqb_neq in Hkey. apply String.eqb_neq in Hdesc.
  rewrite Hkey, Hdesc, Hplan. cbn [mbind py_bind bind].
  unfold as_str_list. rewrite mapM_as_str.
  cbn [create_session fst snd].
  assert ((match form_image_file form with
           | Some filename =>
               if negb (String.eqb filename "")
                  && allowed_file filename ALLOWED_IMAGE_EXTENSIONS
               then Some <$> store_starting_image cw (new_uuid cw)
               else Ret None
           | None =>
               if negb (String.eqb (strip (form_image_url form)) "")
               then Some <$> store_starting_image cw (new_uuid cw)
               else Ret None
           end)
          = Ret (Some (path_join (path_join UPLOAD_FOLDER (new_uuid cw))
                                 "starting_image.jpg"))) as ->.
  { unfold store_starting_image. rewrite Hio.
    destruct Himage as [(filename & -> & Hname & Hallowed)|[-> Hurl]].
    - apply String.eqb_neq in Hname. by rewrite Hname, Hallowed.
    - apply String.eqb_neq in Hurl. by rewrite Hurl. }
  rewrite Hexists.
  unfold update_session.
  rewrite get_session_saved_cached.
  cbn [mbind py_bind bind apply_updates].
  eexists. split; [reflexivity|]. cbn [h_response h_flashes h_calls h_manager].
  split; [reflexivity|]. split; [reflexivity|]. split; [reflexivity|].
  apply get_session_cached. rewrite in_memory_save. cbn.
  apply lookup_insert_eq.
Qed.

Lemma create_makes_session_witness :
  exists h,
    create DemoService.down DemoService.loads DemoCreate.everything_fine
      DemoCreate.with_file Demo.fresh = Ret h
    /\ h_response h = Redirect (ep_plan "u7")
    /\ h_flashes h = []
    /\ h_calls h = []
    /\ get_session "u7" (h_manager h)
       = Ret (Some (mkSessionData "u7" "a cat exploring a garden"
                      "uploads/u7/starting_image.jpg" DemoCreate.plan 1 [] []
                      2 "sk-demo"),
              h_manager h).
Proof.
  apply (create_makes_session DemoService.down DemoService.loads
           DemoCreate.everything_fine DemoCreate.with_file Demo.fresh
           DemoCreate.plan).
  - discriminate.
  - discriminate.
  - reflexivity.
  - left. exists "cat.PNG". repeat split. discriminate.
  - reflexivity.
  - reflexivity.
Defined.

(** X22. When no image is offered, [create] asks for one and unlinks the
    session file, but the session it has made stays in the cache: it is
    still known to this process, under the temporary image path, until the
    process ends.  A file part in the request, even an empty or disallowed
    one, keeps the address from being used. *)
Theorem create_without_image_keeps_cached_session
    (requests_post : string -> string -> string -> http_response)
    (json_loads : string -> option pyval)
    (cw : create_world) (form : create_form) (self : SessionManager)
    (plan : list string) :
  strip (form_openai_api_key form) <> "" ->
  strip (form_scene_description form) <> "" ->
  generate_clip_plan requests_post json_loads
    (strip (form_openai_api_key form)) (strip (form_scene_description form))
    (form_num_clips form) = Ret (VStr <$> plan) ->
  (exists filename,
     form_image_file form = Some filename
     /\ (filename = ""
         \/ allowed_file filename ALLOWED_IMAGE_EXTENSIONS = false))
  \/ (form_image_file form = None /\ strip (form_image_url form) = "") ->
  exists h,
    create requests_post json_loads cw form self = Ret h
    /\ h_response h = Redirect ep_index
    /\ h_flashes h = [Flash image_required "error"]
    /\ session_files (h_manager h) !! new_uuid cw = None
    /\ get_session (new_uuid cw) (h_manager h)
       = Ret (Some (created_record cw form temp_image_path plan),
              h_manager h).
Proof.
  intros Hkey Hdesc Hplan Himage. unfold create.
  apply String.eqb_neq in Hkey. apply String.eqb_neq in Hdesc.
  rewrite Hkey, Hdesc, Hplan. cbn [mbind py_bind bind].
  unfold as_str_list. rewrite mapM_as_str.
  cbn [create_session fst snd].
  assert ((match form_image_file form with
           | Some filename =>
               if negb (String.eqb filename "")
                  && allowed_file filename ALLOWED_IMAGE_EXTENSIONS
               then Some <$> store_starting_image cw (new_uuid cw)
               else Ret None
           | None =>
               if negb (String.eqb (strip (form_image_url form)) "")
               then Some <$> store_starting_image cw (new_uuid cw)
               else Ret None
           end)
          = Ret None) as ->.
  { destruct Himage as [(filename & -> & [->|Hallowed])|[-> ->]]; [done| |done].
    rewrite Hallowed. by rewrite andb_false_r. }
  eexists. split; [reflexivity|].
  cbn [h_response h_flashes h_manager].
  split; [reflexivity|]. split; [reflexivity|]. split.
  - cbn. apply lookup_delete_eq.
  - apply get_session_cached. cbn. rewrite in_memory_save. cbn.
    apply lookup_insert_eq.
Qed.

Lemma create_without_image_keeps_cached_session_witness :
  exists h,
    create DemoService.down DemoService.loads DemoCreate.everything_fine
      DemoCreate.with_url_and_empty_file Demo.fresh = Ret h
    /\ h_response h = Redirect ep_index
    /\ h_flashes h = [Flash image_required "error"]
    /\ session_files (h_manager h) !! "u7" = None
    /\ get_session "u7" (h_manager h)
       = Ret (Some (mkSessionData "u7" "a cat exploring a garden"
                      "/tmp/temp_starting_image.jpg" DemoCreate.plan 1 [] []
                      2 "sk-demo"),
              h_manager h).
Proof.
  apply (create_without_image_keeps_cached_session DemoService.down
           DemoService.loads DemoCreate.everything_fine
           DemoCreate.with_url_and_empty_file Demo.fresh DemoCreate.plan).
  - discriminate.
  - discriminate.
  - reflexivity.
  - left. exists "". split; [reflexivity|]. by left.
Defined.

(** X23. When saving or downloading the offered image raises, [create]
    reports the error and cleans nothing up: the session it has made stays
    in the cache and, when its file was written, on disk, with the
    temporary image path. *)
Theorem create_image_error_leaves_session
    (requests_post : string -> string -> string -> http_response)
    (json_loads : string -> option pyval)
    (cw : create_world) (form : create_form) (self : SessionManager)
    (plan : list string) (e : exn) :
  strip (form_openai_api_key form) <> "" ->
  strip (form_scene_description form) <> "" ->
  generate_clip_plan requests_post json_loads
    (strip (form_openai_api_key form)) (strip (form_scene_description form))
    (form_num_clips form) = Ret (VStr <$> plan) ->
  (exists filename,
     form_image_file form = Some filename /\ filename <> ""
     /\ allowed_file filename ALLOWED_IMAGE_EXTENSIONS = true)
  \/ (form_image_file form = None /\ strip (form_image_url form) <> "") ->
  image_failure cw = Some e ->
  exists h,
    create requests_post json_loads cw form self = Ret h
    /\ h_response h = Redirect ep_index
    /\ h_flashes h = [FlashExn "Error creating session: " e "error"]
    /\ get_session (new_uuid cw) (h_manager h)
       = Ret (Some (created_record cw form temp_image_path plan),
              h_manager h)
    /\ (create_write cw = WriteOk ->
        session_files (h_manager h) !! new_uuid cw
        = Some (to_dict (created_record cw form temp_image_path plan))).
Proof.
  intros Hkey Hdesc Hplan Himage Hio. unfold create.
  apply String.eqb_neq in Hkey. apply String.eqb_neq in Hdesc.
  rewrite Hkey, Hdesc, Hplan. cbn [mbind py_bind bind].
  unfold as_str_list. rewrite mapM_as_str.
  cbn [create_session fst snd].
  assert ((match form_image_file form with
           | Some filename =>
               if negb (String.eqb filename "")
                  && allowed_file filename ALLOWED_IMAGE_EXTENSIONS
               then Some <$> store_starting_image cw (new_uuid cw)
               else Ret None
           | None =>
               if negb (String.eqb (strip (form_image_url form)) "")
               then Some <$> store_starting_image cw (new_uuid cw)
               else Ret None
           end)
          = Raise e) as ->.
  { unfold store_starting_image. rewrite Hio.
    destruct Himage as [(filename & -> & Hname & Hallowed)|[-> Hurl]].
    - apply String.eqb_neq in Hname. by rewrite Hname, Hallowed.
    - apply String.eqb_neq in Hurl. by rewrite Hurl. }
  eexists. split; [reflexivity|].
  cbn [h_response h_flashes h_manager].
  split; [reflexivity|]. split; [reflexivity|]. split.
  - apply get_session_cached. rewrite in_memory_save. cbn.
    apply lookup_insert_eq.
  - intros ->. cbn. apply lookup_insert_eq.
Qed.

Lemma create_image_error_leaves_session_witness :
  exists h,
    create DemoService.down DemoService.loads DemoCreate.image_fails
      DemoCreate.with_file Demo.fresh = Ret h
    /\ h_response h = Redirect ep_index
    /\ h_flashes h = [FlashExn "Error creating session: " RuntimeError "error"]
    /\ get_session "u7" (h_manager h)
       = Ret (Some (mkSessionData "u7" "a cat exploring a garden"
                      "/tmp/temp_starting_image.jpg" DemoCreate.plan 1 [] []
                      2 "sk-demo"),
              h_manager h)
    /\ (WriteOk = WriteOk ->
        session_files (h_manager h) !! "u7"
        = Some (to_dict (mkSessionData "u7" "a cat exploring a garden"
                           "/tmp/temp_starting_image.jpg" DemoCreate.plan 1
                           [] [] 2 "sk-demo"))).
Proof.
  apply (create_image_error_leaves_session DemoService.down
           DemoService.loads DemoCreate.image_fails DemoCreate.with_file
           Demo.fresh DemoCreate.plan RuntimeError).
  - discriminate.
  - discriminate.
  - reflexivity.
  - left. exists "cat.PNG". repeat split. discriminate.
  - reflexivity.
Defined.

(** ** The prompt planner: what counts as a plan *)

Section Cleaning.

Implicit Types (s x y body : string) (c : ascii).

Lemma rstrip_idem s : rstrip (rstrip s) = rstrip s.
Proof.
  induction s as [|c s IH]; [done|]. cbn [rstrip].
  destruct (rstrip s) as [|c' t] eqn:Ht.
  - destruct (is_space c) eqn:Hc; [done|]. cbn [rstrip]. by rewrite Hc.
  - cbn [rstrip]. cbn [rstrip] in IH. by rewrite IH.
Qed.

Lemma lstrip_head c s : is_space c = false -> lstrip (String c s) = String c s.
Proof. intros Hc. cbn [lstrip]. by rewrite Hc. Qed.

Lemma lstrip_shape s :
  lstrip s = "" \/ exists c t, lstrip s = String c t /\ is_space c = false.
Proof.
  induction s as [|c s IH]; [by left|]. cbn [lstrip].
  destruct (is_space c) eqn:Hc; [exact IH|]. right. by exists c, s.
Qed.

(** Trimming twice is trimming once. *)
Lemma strip_idem s : strip (strip s) = strip s.
Proof.
  unfold strip. destruct (lstrip_shape s) as [->|(c & t & -> & Hc)]; [done|].
  assert (exists t', rstrip (String c t) = String c t') as [t' Ht'].
  { cbn [rstrip]. destruct (rstrip t); [rewrite Hc|]; by eexists. }
  rewrite Ht', (lstrip_head _ _ Hc), <- Ht'. apply rstrip_idem.
Qed.

Lemma rstrip_app x y :
  rstrip y <> "" -> rstrip (x +:+ y) = x +:+ rstrip y.
Proof.
  intros Hy. induction x as [|c x IH]; [done|].
  change (rstrip (String c (x +:+ y)) = String c (x +:+ rstrip y)).
  cbn [rstrip]. rewrite IH.
  destruct (x +:+ rstrip y) eqn:Hx; [|done].
  destruct x; [|done]. by destruct Hy.
Qed.

Lemma before_sep_fence x y :
  has_char "`" x = false -> before_sep fence (x +:+ fence +:+ y) = x.
Proof.
  intros Hx. induction x as [|c x IH]; [by destruct y|].
  cbn [has_char] in Hx. apply orb_false_iff in Hx as [Hc Hx].
  change (before_sep fence (String c (x +:+ fence +:+ y)) = String c x).
  cbn [before_sep].
  assert (String.prefix fence (String c (x +:+ fence +:+ y)) = false) as ->.
  { unfold fence. cbn [String.prefix].
    destruct (ascii_dec "`" c) as [<-|_]; [discriminate Hc|done]. }
  by rewrite (IH Hx).
Qed.

Lemma prefix_app x y : String.prefix x (x +:+ y) = true.
Proof.
  induction x as [|c x IH]; [by destruct y|].
  change (String.prefix (String c x) (String c (x +:+ y)) = true).
  cbn [String.prefix]. by destruct (ascii_dec c c).
Qed.

End Cleaning.

Section PlannerMore.

Variable requests_post : string -> string -> string -> http_response.
Variable json_loads : string -> option pyval.

(** The cleaned text decides the outcome: no JSON is a [RuntimeError], JSON
    that is not a list of the requested length a [ValueError]. *)
Lemma parse_cleaned (clean : string) (num_clips : Z) :
  try_except_only is_JSONDecodeError
    (prompts ← of_option JSONDecodeError (json_loads clean);
     match prompts with
     | VList l =>
         if negb (Z.of_nat (length l) =? num_clips)
         then Raise ValueError
         else Ret l
     | _ => Raise ValueError
     end)
    (fun _ => Raise RuntimeError)
  = parsed_plan (json_loads clean) num_clips.
Proof.
  unfold parsed_plan. destruct (json_loads clean) as [[| | | | |l|]|]; try done.
  cbn. by destruct (Z.of_nat (length l) =? num_clips).
Qed.

(** What [call_openai_gpt] does with a response that carries a completion
    text. *)
Lemma call_openai_gpt_completion api_key scene_description num_clips content :
  requests_post api_key system_prompt
    (user_message scene_description num_clips)
  = completion content ->
  content <> "" ->
  call_openai_gpt requests_post json_loads api_key scene_description num_clips
  = parsed_plan
      (json_loads
         (strip
            (if startswith (strip content) fence
             then
               if startswith (before_sep fence (drop_chars 3 (strip content)))
                    "json"
               then drop_chars 4
                      (before_sep fence (drop_chars 3 (strip content)))
               else before_sep fence (drop_chars 3 (strip content))
             else strip content)))
      num_clips.
Proof.
  intros Hpost Hcontent. unfold call_openai_gpt. rewrite Hpost.
  unfold completion.
  cbn [resp_ok resp_json negb of_option mbind py_bind bind].
  change (py_get (VDict [("choices",
                          VList [VDict [("message",
                                         VDict [("content", VStr content)])]])])
            "choices" (VList [VDict []]))
    with (Ret (VList [VDict [("message",
                              VDict [("content", VStr content)])]])).
  cbn [mbind py_bind bind py_index0].
  change (py_get (VDict [("message", VDict [("content", VStr content)])])
            "message" (VDict []))
    with (Ret (VDict [("content", VStr content)])).
  cbn [mbind py_bind bind].
  change (py_get (VDict [("content", VStr content)]) "content" (VStr ""))
    with (Ret (VStr content)).
  cbn [mbind py_bind bind truthy py_strip].
  apply String.eqb_neq in Hcontent. rewrite Hcontent. cbn [negb].
  rewrite <- parse_cleaned. reflexivity.
Qed.

End PlannerMore.

(** X24. The planner's length contract: [generate_clip_plan] never raises,
    and the plan it returns has exactly the requested number of entries, none
    when the request is for a negative number. *)
Theorem generate_clip_plan_length
    (requests_post : string -> string -> string -> http_response)
    (json_loads : string -> option pyval)
    (api_key scene_description : string) (num_clips : Z) :
  exists plan,
    generate_clip_plan requests_post json_loads api_key scene_description
      num_clips = Ret plan
    /\ Z.of_nat (length plan) = Z.max 0 num_clips.
Proof.
  unfold generate_clip_plan.
  pose proof (call_openai_gpt_not_stuck requests_post json_loads api_key
                scene_description num_clips) as Hstuck.
  destruct (call_openai_gpt _ _ _ _ _) as [l|e|] eqn:Hcall; [| |done].
  - exists l. split; [done|].
    apply call_openai_gpt_length in Hcall. lia.
  - eexists. split; [reflexivity|].
    rewrite !length_fmap, length_seqZ. lia.
Qed.

(** X25. A completion wrapped in a code fence tagged [json] is read like
    the bare text inside the fence: when the text inside has no backtick,
    the outcome of [call_openai_gpt] is the one of parsing that text,
    trimmed. *)
Theorem call_openai_gpt_fenced
    (requests_post : string -> string -> string -> http_response)
    (json_loads : string -> option pyval)
    (api_key scene_description body : string) (num_clips : Z) :
  requests_post api_key system_prompt
    (user_message scene_description num_clips)
  = completion (fence +:+ "json" +:+ body +:+ fence) ->
  has_char "`" body = false ->
  call_openai_gpt requests_post json_loads api_key scene_description num_clips
  = parsed_plan (json_loads (strip body)) num_clips.
Proof.
  intros Hpost Hbody.
  rewrite (call_openai_gpt_completion _ _ _ _ _ _ Hpost) by done.
  assert (strip (fence +:+ "json" +:+ body +:+ fence)
          = fence +:+ "json" +:+ body +:+ fence) as ->.
  { unfold strip.
    change (fence +:+ "json" +:+ body +:+ fence)
      with (String "`" ("``json" +:+ body +:+ fence)).
    rewrite (lstrip_head "`"); [|done].
    change (String "`" ("``json" +:+ body +:+ fence))
      with (("```json" +:+ body) +:+ fence).
    rewrite rstrip_app; [reflexivity|discriminate]. }
  unfold startswith. rewrite prefix_app.
  change (drop_chars 3 (fence +:+ "json" +:+ body +:+ fence))
    with (("json" +:+ body) +:+ fence +:+ "").
  rewrite before_sep_fence by exact Hbody.
  rewrite prefix_app. reflexivity.
Qed.

Lemma call_openai_gpt_fenced_witness :
  call_openai_gpt
    (fun _ _ _ => completion (fence +:+ "json" +:+ " [1, 2, 3] " +:+ fence))
    DemoService.loads "sk-demo" "a cat" 3
  = parsed_plan (DemoService.loads (strip " [1, 2, 3] ")) 3.
Proof.
  apply (call_openai_gpt_fenced
           (fun _ _ _ =>
              completion (fence +:+ "json" +:+ " [1, 2, 3] " +:+ fence))
           DemoService.loads "sk-demo" "a cat" " [1, 2, 3] " 3).
  - reflexivity.
  - reflexivity.
Defined.

(** X26. A completion without a fence is parsed after trimming: when the
    trimmed text does not start with a fence, the outcome of
    [call_openai_gpt] is the one of parsing the trimmed text, so that no
    JSON gives [RuntimeError], and JSON that is not a list of the requested
    length [ValueError]. *)
Theorem call_openai_gpt_bare
    (requests_post : string -> string -> string -> http_response)
    (json_loads : string -> option pyval)
    (api_key scene_description content : string) (num_clips : Z) :
  requests_post api_key system_prompt
    (user_message scene_description num_clips)
  = completion content ->
  content <> "" ->
  startswith (strip content) fence = false ->
  call_openai_gpt requests_post json_loads api_key scene_description num_clips
  = parsed_plan (json_loads (strip content)) num_clips.
Proof.
  intros Hpost Hcontent Hbare.
  rewrite (call_openai_gpt_completion _ _ _ _ _ _ Hpost Hcontent).
  by rewrite Hbare, strip_idem.
Qed.

Lemma call_openai_gpt_bare_witness :
  call_openai_gpt (fun _ _ _ => completion "  not json  ")
    DemoService.loads "sk-demo" "a cat" 3
  = parsed_plan (DemoService.loads (strip "  not json  ")) 3.
Proof.
  apply (call_openai_gpt_bare (fun _ _ _ => completion "  not json  ")
           DemoService.loads "sk-demo" "a cat" "  not json  " 3).
  - reflexivity.
  - discriminate.
  - reflexivity.
Defined.

(** A response without the expected structure: when the JSON object
    has no [choices], the defaults lead to an empty completion and
    [RuntimeError]; when [choices] is an empty list, indexing it raises
    [IndexError] instead. *)
Theorem call_openai_gpt_missing_choices
    (requests_post : string -> string -> string -> http_response)
    (json_loads : string -> option pyval)
    (api_key scene_description : string) (num_clips : Z) (d : dict) :
  requests_post api_key system_prompt
    (user_message scene_description num_clips)
  = mkResponse true (Some (VDict d)) ->
  (dict_lookup "choices" d = None ->
   call_openai_gpt requests_post json_loads api_key scene_description
     num_clips = Raise RuntimeError)
  /\ (dict_lookup "choices" d = Some (VList []) ->
      call_openai_gpt requests_post json_loads api_key scene_description
        num_clips = Raise IndexError).
Proof.
  intros Hpost. unfold call_openai_gpt. rewrite Hpost.
  cbn [resp_ok resp_json negb of_option mbind py_bind bind py_get].
  split; intros ->; reflexivity.
Qed.

Lemma call_openai_gpt_missing_choices_witness :
  call_openai_gpt
    (fun _ _ _ => mkResponse true (Some (VDict [("error", VStr "busy")])))
    DemoService.loads "sk-demo" "a cat" 3
  = Raise RuntimeError.
Proof.
  apply (call_openai_gpt_missing_choices
           (fun _ _ _ =>
              mkResponse true (Some (VDict [("error", VStr "busy")])))
           DemoService.loads "sk-demo" "a cat" 3 [("error", VStr "busy")]).
  - reflexivity.
  - reflexivity.
Defined.

(** ** Configuration *)

(** X27. Where the API key of a loaded configuration comes from: it is
    never empty; it is [OPENAI_API_KEY] when that variable is set and not
    empty, and [VIDEO_API_KEY] otherwise, an empty [OPENAI_API_KEY]
    counting as unset. *)
Theorem from_yaml_api_key
    (document : option pyval) (environ : string -> option string)
    (c : config.Config) :
  config.from_yaml true document environ = config.Loaded c ->
  config.api_key c <> ""
  /\ (environ "OPENAI_API_KEY" = Some (config.api_key c)
      \/ ((environ "OPENAI_API_KEY" = None
           \/ environ "OPENAI_API_KEY" = Some "")
          /\ environ "VIDEO_API_KEY" = Some (config.api_key c))).
Proof.
  unfold config.from_yaml. cbn [negb].
  destruct document as [data|]; [|discriminate].
  unfold config.env_or.
  destruct (environ "OPENAI_API_KEY") as [k|] eqn:Hopenai.
  - destruct (String.eqb_spec k "") as [->|Hk].
    + destruct (environ "VIDEO_API_KEY") as [v|]; [|discriminate].
      destruct (String.eqb_spec v "") as [->|Hv]; [discriminate|].
      intros Hloaded.
      assert (config.api_key c = v) as ->.
      { repeat case_match; try discriminate. by injection Hloaded as <-. }
      split; [done|]. right. split; [by right|done].
    + rewrite (proj2 (String.eqb_neq _ _) Hk). intros Hloaded.
      assert (config.api_key c = k) as ->.
      { repeat case_match; try discriminate. by injection Hloaded as <-. }
      split; [done|]. by left.
  - destruct (environ "VIDEO_API_KEY") as [v|]; [|discriminate].
    destruct (String.eqb_spec v "") as [->|Hv]; [discriminate|].
    intros Hloaded.
    assert (config.api_key c = v) as ->.
    { repeat case_match; try discriminate. by injection Hloaded as <-. }
    split; [done|]. right. split; [by left|done].
Qed.

Lemma from_yaml_api_key_witness :
  "video-key" <> ""
  /\ (DemoConfig.video_key_only "OPENAI_API_KEY" = Some "video-key"
      \/ ((DemoConfig.video_key_only "OPENAI_API_KEY" = None
           \/ DemoConfig.video_key_only "OPENAI_API_KEY" = Some "")
          /\ DemoConfig.video_key_only "VIDEO_API_KEY" = Some "video-key")).
Proof.
  apply (from_yaml_api_key (Some (VDict [])) DemoConfig.video_key_only
           (config.mkConfig "video-key" "uploads")).
  reflexivity.
Defined.

(** X28. What the document contributes once a key is available: without an
    [output] section, or without a [directory] in it, the output directory
    is [uploads]; an empty document, which loads as [None], makes
    [from_yaml] raise [AttributeError], an exception that is neither
    [FileNotFoundError] nor [RuntimeError]. *)
Theorem from_yaml_document
    (environ : string -> option string) (key : string) :
  config.env_or (environ "OPENAI_API_KEY") (environ "VIDEO_API_KEY")
  = Some key ->
  key <> "" ->
  (forall d,
     dict_lookup "output" d = None ->
     config.from_yaml true (Some (VDict d)) environ
     = config.Loaded (config.mkConfig key "uploads"))
  /\ (forall d output,
        dict_lookup "output" d = Some (VDict output) ->
        dict_lookup "directory" output = None ->
        config.from_yaml true (Some (VDict d)) environ
        = config.Loaded (config.mkConfig key "uploads"))
  /\ config.from_yaml true (Some VNone) environ
     = config.Failed (config.PyError AttributeError).
Proof.
  intros Hkey Hne. apply String.eqb_neq in Hne.
  unfold config.from_yaml. cbn [negb]. rewrite Hkey, Hne.
  split; [|split].
  - intros d ->. reflexivity.
  - intros d output -> Hdir. cbn. by rewrite Hdir.
  - reflexivity.
Qed.

Lemma from_yaml_document_witness :
  config.from_yaml true (Some VNone) DemoConfig.openai_key_only
  = config.Failed (config.PyError AttributeError).
Proof.
  apply (from_yaml_document DemoConfig.openai_key_only "sk-demo").
  - reflexivity.
  - discriminate.
Defined.

(** ** Polling for a generated video *)

Section PollingLoop.

Import video_generator.

Variable requests_get : nat -> http_response.

Lemma poll_loop_ret remaining poll_count data :
  poll_loop requests_get remaining poll_count = Ret data ->
  exists n,
    (poll_count <= n < poll_count + remaining)%nat
    /\ completed_with (requests_get n) data
    /\ forall m, (poll_count <= m < n)%nat -> still_running (requests_get m).
Proof.
  revert poll_count.
  induction remaining as [|remaining IH]; intros poll_count; [discriminate|].
  cbn [poll_loop].
  destruct (resp_ok (requests_get poll_count)) eqn:Hok; cbn [negb];
    [|discriminate].
  destruct (resp_json (requests_get poll_count)) as [d|] eqn:Hjson;
    cbn [of_option mbind py_bind bind]; [|discriminate].
  destruct (py_get d "status" VNone) as [status| |] eqn:Hstatus;
    cbn [mbind py_bind bind]; try discriminate.
  destruct (status_is status "completed") eqn:Hdone.
  - intros [= <-]. exists poll_count. split; [lia|]. split.
    + split; [done|]. split; [done|]. by exists status.
    + intros m Hm. lia.
  - destruct (status_is status "failed") eqn:Hfailed; [discriminate|].
    intros Hrest. destruct (IH _ Hrest) as (n & Hn & Hdata & Hbefore).
    exists n. split; [lia|]. split; [exact Hdata|].
    intros m Hm. destruct (decide (m = poll_count)) as [->|Hne].
    + split; [done|]. by exists d, status.
    + apply Hbefore. lia.
Qed.

Lemma poll_loop_running remaining poll_count :
  (forall m, (poll_count <= m < poll_count + remaining)%nat ->
             still_running (requests_get m)) ->
  poll_loop requests_get remaining poll_count = Raise RuntimeError.
Proof.
  revert poll_count.
  induction remaining as [|remaining IH]; intros poll_count Hall; [done|].
  cbn [poll_loop].
  destruct (Hall poll_count) as (Hok & d & status & Hjson & Hstatus & Hc & Hf);
    [lia|].
  rewrite Hok, Hjson. cbn [negb of_option mbind py_bind bind].
  rewrite Hstatus. cbn [mbind py_bind bind]. rewrite Hc, Hf.
  apply IH. intros m Hm. apply Hall. lia.
Qed.

End PollingLoop.

Lemma poll_loop_ext
    (get1 get2 : nat -> http_response) (remaining poll_count : nat) :
  (forall m, (poll_count <= m < poll_count + remaining)%nat ->
             get1 m = get2 m) ->
  video_generator.poll_loop get1 remaining poll_count
  = video_generator.poll_loop get2 remaining poll_count.
Proof.
  revert poll_count.
  induction remaining as [|remaining IH]; intros poll_count Hsame; [done|].
  cbn [video_generator.poll_loop]. rewrite <- (Hsame poll_count) by lia.
  rewrite (IH (S poll_count)); [done|]. intros m Hm. apply Hsame. lia.
Qed.

(** X29. [poll_video_status] returns only what a [completed] response
    carried: the data comes from one of the first 120 status responses, that
    response was fine and had status [completed], and every response before
    it was fine with a status other than [completed] and [failed]. *)
Theorem poll_video_status_completed
    (requests_get : nat -> http_response) (data : pyval) :
  video_generator.poll_video_status requests_get = Ret data ->
  exists n,
    (n < 120)%nat
    /\ completed_with (requests_get n) data
    /\ forall m, (m < n)%nat -> still_running (requests_get m).
Proof.
  intros Hpoll. apply poll_loop_ret in Hpoll as (n & Hn & Hdata & Hbefore).
  exists n. split; [unfold video_generator.max_polls in Hn; lia|].
  split; [exact Hdata|]. intros m Hm. apply Hbefore. lia.
Qed.

Lemma poll_video_status_completed_witness :
  exists n,
    (n < 120)%nat
    /\ completed_with (DemoPolling.done_at_third n)
         (VDict [("status", VStr "completed")])
    /\ forall m, (m < n)%nat -> still_running (DemoPolling.done_at_third m).
Proof.
  apply (poll_video_status_completed DemoPolling.done_at_third
           (VDict [("status", VStr "completed")])).
  reflexivity.
Defined.

(** X30. [poll_video_status] gives up after 120 polls: when the first 120
    status responses are all fine with a status other than [completed] and
    [failed], an unknown status included, it raises [RuntimeError], whatever
    a later response would have been. *)
Theorem poll_video_status_gives_up
    (requests_get : nat -> http_response) :
  (forall m, (m < 120)%nat -> still_running (requests_get m)) ->
  video_generator.poll_video_status requests_get = Raise RuntimeError.
Proof.
  intros Hall. apply poll_loop_running.
  intros m Hm. apply Hall. unfold video_generator.max_polls in Hm. lia.
Qed.

Lemma poll_video_status_gives_up_witness :
  video_generator.poll_video_status DemoPolling.never_done
  = Raise RuntimeError.
Proof.
  apply (poll_video_status_gives_up DemoPolling.never_done).
  intros m _. split; [reflexivity|].
  exists (VDict [("status", VStr "pending")]), (VStr "pending").
  repeat split.
Defined.

(** [poll_video_status] asks for the status at most 120 times: its
    outcome is the same for any two services that agree on their first 120
    responses. *)
Theorem poll_video_status_bounded
    (get1 get2 : nat -> http_response) :
  (forall m, (m < 120)%nat -> get1 m = get2 m) ->
  video_generator.poll_video_status get1
  = video_generator.poll_video_status get2.
Proof.
  intros Hsame. apply poll_loop_ext.
  intros m Hm. apply Hsame. unfold video_generator.max_polls in Hm. lia.
Qed.

Lemma poll_video_status_bounded_witness :
  video_generator.poll_video_status DemoPolling.never_done
  = video_generator.poll_video_status
      (fun n => if (n <? 120)%nat then DemoPolling.never_done n
                else DemoPolling.status_response "completed").
Proof.
  apply (poll_video_status_bounded DemoPolling.never_done
           (fun n => if (n <? 120)%nat then DemoPolling.never_done n
                     else DemoPolling.status_response "completed")).
  intros m Hm. apply Nat.ltb_lt in Hm. by rewrite Hm.
Defined.
